(** * agent-sdk-go: message-history builders, the OpenAI tool loop and the
    tracing middleware, embedded and verified.

    Sources embedded here:
    - [pkg/llm/gemini/message_history.go]      (module [gemini])
    - [pkg/llm/azureopenai/message_history.go] (module [azureopenai])
    - [pkg/llm/openai/client.go]               (module [openai])
    - the tracing middleware [TracedLLM] and [pkg/tracing/utils.go]
      (module [tracing])

    Go strings are byte strings ([string]); [float64] is Rocq's primitive
    binary64 [float]; Go [int] values are in [Z]; a Go map is a [gmap], with
    [None] for the nil map where the code tests for it.  Calls that reach the
    outside world (the vendor endpoint, a tool's [Execute], the clock) thread
    an explicit world state.  Logger calls have no effect on any returned
    value and are left out. *)

From Stdlib Require Import ZArith String Ascii List PrimFloat.
From stdpp Require Import base option list strings gmap.

Set Warnings "-register-all,-inexact-float".

Local Open Scope string_scope.
Local Open Scope list_scope.

(** ** Go's [strings] package, as far as the code uses it *)

Module gostrings.

(** [strings.HasPrefix(s, prefix)] *)
Definition HasPrefix (s prefix : string) : bool := String.prefix prefix s.

(** [strings.Join(elems, sep)] *)
Definition Join (elems : list string) (sep : string) : string := String.concat sep elems.

Definition byte (n : nat) : ascii := ascii_of_nat n.

(** The six ASCII bytes of [strings.asciiSpace]. *)
Definition asciiSpace (c : ascii) : bool :=
  let n := nat_of_ascii c in
  (n =? 9)%nat || (n =? 10)%nat || (n =? 11)%nat
  || (n =? 12)%nat || (n =? 13)%nat || (n =? 32)%nat.

Definition bytes (l : list nat) : string := string_of_list_ascii (map byte l).

(** UTF-8 encodings of the non-ASCII runes for which [unicode.IsSpace]
    holds: U+0085, U+00A0, U+1680, U+2000..U+200A, U+2028, U+2029, U+202F,
    U+205F, U+3000. *)
Definition unicodeSpaces : list string :=
  bytes [194; 133] :: bytes [194; 160] :: bytes [225; 154; 128]
  :: map (fun k => bytes [226; 128; k]) (seq 128 11)
  ++ [bytes [226; 128; 168]; bytes [226; 128; 169]; bytes [226; 128; 175];
      bytes [226; 129; 159]; bytes [227; 128; 128]].

Fixpoint drop_string (n : nat) (s : string) : string :=
  match n, s with
  | S n', String _ s' => drop_string n' s'
  | _, _ => s
  end.

(** Width in bytes of the white-space rune at the head of [s], [0] when the
    head is not white space. *)
Definition leadingSpace (s : string) : nat :=
  match s with
  | EmptyString => 0
  | String c _ =>
      if asciiSpace c then 1
      else match List.find (fun p => String.prefix p s) unicodeSpaces with
           | Some p => String.length p
           | None => 0
           end
  end.

Fixpoint trimLeft (fuel : nat) (s : string) : string :=
  match fuel with
  | O => s
  | S fuel' =>
      match leadingSpace s with
      | O => s
      | w => trimLeft fuel' (drop_string w s)
      end
  end.

Definition rev_string (s : string) : string :=
  string_of_list_ascii (rev (list_ascii_of_string s)).

(** The same test at the tail of the string, on the reversed bytes. *)
Definition trailingSpaceRev (r : string) : nat :=
  match r with
  | EmptyString => 0
  | String c _ =>
      if asciiSpace c then 1
      else match List.find (fun p => String.prefix (rev_string p) r) unicodeSpaces with
           | Some p => String.length p
           | None => 0
           end
  end.

Fixpoint trimLeftRev (fuel : nat) (r : string) : string :=
  match fuel with
  | O => r
  | S fuel' =>
      match trailingSpaceRev r with
      | O => r
      | w => trimLeftRev fuel' (drop_string w r)
      end
  end.

Definition trimRight (s : string) : string :=
  rev_string (trimLeftRev (String.length s) (rev_string s)).

(** [strings.TrimSpace(s)]: [s] without its leading and trailing Unicode
    white space. *)
Definition TrimSpace (s : string) : string :=
  trimRight (trimLeft (String.length s) s).

End gostrings.

(** What a call of [Generate] or [GenerateWithTools] does: return Go's
    [(string, error)] pair, or panic. *)
Inductive Outcome : Type :=
| Returns (text : string) (err : option string)
| Panics.

(** ** [pkg/interfaces]: the vendor-neutral data model *)

Module interfaces.

(** A value of Go's [interface{}] as it occurs in metadata, decoded JSON
    and schemas. *)
Inductive any : Type :=
| AnyNil
| AnyBool (b : bool)
| AnyInt (z : Z)
| AnyFloat (f : float)
| AnyString (s : string)
| AnySlice (l : list any)
| AnyMap (m : list (string * any)).

(** [MessageRole] is a string type with four named constants; every other
    value falls through each [switch] on the role. *)
Inductive MessageRole : Type :=
| MessageRoleUser
| MessageRoleAssistant
| MessageRoleTool
| MessageRoleSystem
| MessageRoleOther (role : string).

Record ToolCall : Type := mkToolCall {
  ID : string;
  Name : string; Arguments : string
}.

Record Message : Type := mkMessage {
  Role : MessageRole;
  Content : string;
  ToolCalls : list ToolCall;
  ToolCallID : string;
  Metadata : option (gmap string any)
}.

(** The [Memory] interface: what [GetMessages(ctx)] returns, the ordered
    history or an error message. *)
Record Memory : Type := mkMemory {
  GetMessages : list Message + string
}.

(** [LLMConfig]: the generation-tuning parameters. *)
Record LLMConfig : Type := mkLLMConfig {
  Temperature : float;
  TopP : float;
  FrequencyPenalty : float;
  PresencePenalty : float;
  StopSequences : list string;
  Reasoning : string
}.

Record ResponseFormat : Type := mkResponseFormat {
  ResponseFormat_Name : string;
  Schema : any
}.

(** [GenerateOptions]; [LLMConfig] and [ResponseFormat] are pointers
    ([None] is nil), [MaxIterations] a Go [int]. *)
Record GenerateOptions : Type := mkGenerateOptions {
  LLMConfig_ : option LLMConfig;
  Memory_ : option Memory;
  SystemMessage : string;
  ResponseFormat_ : option ResponseFormat;
  MaxIterations : Z
}.

(** The zero value [&interfaces.GenerateOptions{}]. *)
Definition zeroGenerateOptions : GenerateOptions :=
  mkGenerateOptions None None "" None 0.

(** A [GenerateOption] is a function on a pointer to [GenerateOptions]: the outer [None] is
    the nil function value, the inner [None] a nil-pointer panic raised
    while the function runs. *)
Definition GenerateOption : Type := option (GenerateOptions -> option GenerateOptions).

(** [ParameterSpec], with [Items] a pointer to a nested spec and [Enum] a
    possibly nil slice. *)
Inductive ParameterSpec : Type :=
| mkParameterSpec (Type_ : string) (Description : string) (Required : bool)
                  (Items : option ParameterSpec) (Enum : option (list any)).

Definition ParameterSpec_Type (p : ParameterSpec) : string :=
  let '(mkParameterSpec t _ _ _ _) := p in t.
Definition ParameterSpec_Description (p : ParameterSpec) : string :=
  let '(mkParameterSpec _ d _ _ _) := p in d.
Definition ParameterSpec_Required (p : ParameterSpec) : bool :=
  let '(mkParameterSpec _ _ r _ _) := p in r.
Definition ParameterSpec_Items (p : ParameterSpec) : option ParameterSpec :=
  let '(mkParameterSpec _ _ _ i _) := p in i.
Definition ParameterSpec_Enum (p : ParameterSpec) : option (list any) :=
  let '(mkParameterSpec _ _ _ _ e) := p in e.

(** The [Tool] interface over a world state [W]; [Execute(ctx, args)]
    returns a result or an error message. *)
Record Tool (W : Type) : Type := mkTool {
  Tool_Name : string;
  Tool_Description : string;
  Parameters : gmap string ParameterSpec;
  Execute : string -> W -> (string + string) * W
}.
Arguments mkTool {W}.
Arguments Tool_Name {W}.
Arguments Tool_Description {W}.
Arguments Parameters {W}.
Arguments Execute {W}.

End interfaces.

(** ** [encoding/json] and the vendor SDK types *)

Module json.

(** The outcome of [json.Unmarshal(data, &args)] for a nil
    [map[string]interface{}] variable [args]: on success the map the
    variable then holds ([None] when it is still nil, as after decoding
    [null]), otherwise the error message. *)
Definition Unmarshaler : Type := string -> option (gmap string interfaces.any) + string.

(** A decoder for the JSON fragment that the examples below use: [null],
    and objects whose values are strings without escapes, [true],
    [false] or [null].  Everything else is reported as an error. *)

Definition quote : ascii := ascii_of_nat 34.
Definition backslash : ascii := ascii_of_nat 92.

Definition isSpace (c : ascii) : bool :=
  let n := nat_of_ascii c in
  (n =? 32)%nat || (n =? 9)%nat || (n =? 10)%nat || (n =? 13)%nat.

Fixpoint skipSpace (s : list ascii) : list ascii :=
  match s with
  | c :: s' => if isSpace c then skipSpace s' else s
  | [] => []
  end.

(** The characters up to the closing quote. *)
Fixpoint readString (s : list ascii) (acc : string) : option (string * list ascii) :=
  match s with
  | [] => None
  | c :: s' =>
      if Ascii.eqb c quote then Some (acc, s')
      else if Ascii.eqb c backslash then None
      else readString s' (acc +:+ String c "")
  end.

Definition readValue (s : list ascii) : option (interfaces.any * list ascii) :=
  match s with
  | "t" :: "r" :: "u" :: "e" :: rest => Some (interfaces.AnyBool true, rest)
  | "f" :: "a" :: "l" :: "s" :: "e" :: rest => Some (interfaces.AnyBool false, rest)
  | "n" :: "u" :: "l" :: "l" :: rest => Some (interfaces.AnyNil, rest)
  | c :: rest =>
      if Ascii.eqb c quote then
        '(v, rest') ← readString rest ""%string; Some (interfaces.AnyString v, rest')
      else None
  | [] => None
  end%char.

(** The members of an object, from the first key to the closing brace. *)
Fixpoint readMembers (fuel : nat) (s : list ascii) (m : gmap string interfaces.any)
    : option (gmap string interfaces.any * list ascii) :=
  match fuel, s with
  | S fuel', c :: s1 =>
      if Ascii.eqb c quote then
        '(k, s2) ← readString s1 ""%string;
        match skipSpace s2 with
        | ":" :: s3 =>
            '(v, s4) ← readValue (skipSpace s3);
            match skipSpace s4 with
            | "," :: s5 => readMembers fuel' (skipSpace s5) (<[k:=v]> m)
            | "}" :: s5 => Some (<[k:=v]> m, s5)
            | _ => None
            end
        | _ => None
        end%char
      else None
  | _, _ => None
  end.

Definition atEnd (s : list ascii) : bool :=
  match skipSpace s with [] => true | _ => false end.

Definition flatUnmarshal : Unmarshaler := fun data =>
  match skipSpace (list_ascii_of_string data) with
  | "n" :: "u" :: "l" :: "l" :: rest =>
      if atEnd rest then inl None else inr "invalid character after top-level value"%string
  | "{" :: s1 =>
      match skipSpace s1 with
      | "}" :: s2 =>
          if atEnd s2 then inl (Some ∅) else inr "invalid character after top-level value"%string
      | s2 =>
          match readMembers (length s2) s2 ∅ with
          | Some (m, s3) =>
              if atEnd s3 then inl (Some m) else inr "invalid character after top-level value"%string
          | None => inr "invalid character in object"%string
          end
      end
  | [] => inr "unexpected end of JSON input"%string
  | _ => inr "cannot unmarshal into Go value of type map[string]interface {}"%string
  end%char.

End json.

(** [google.golang.org/genai]: the fields of [Content] and [Part] that the
    builder sets; every other field keeps its zero value. *)
Module genai.

Record FunctionCall : Type := mkFunctionCall {
  FunctionCall_Name : string;
  Args : option (gmap string interfaces.any)
}.

Record FunctionResponse : Type := mkFunctionResponse {
  FunctionResponse_Name : string;
  Response : gmap string interfaces.any
}.

Record Part : Type := mkPart {
  Text : string;
  PartFunctionCall : option FunctionCall;
  PartFunctionResponse : option FunctionResponse
}.

Record Content : Type := mkContent {
  Role : string;
  Parts : list Part
}.

(** [&genai.Part{Text: s}] *)
Definition TextPart (s : string) : Part := mkPart s None None.
(** [&genai.Part{FunctionCall: &genai.FunctionCall{...}}] *)
Definition FunctionCallPart (fc : FunctionCall) : Part := mkPart "" (Some fc) None.
(** [{FunctionResponse: &genai.FunctionResponse{...}}] *)
Definition FunctionResponsePart (fr : FunctionResponse) : Part := mkPart "" None (Some fr).

End genai.

(** [github.com/openai/openai-go/v2]: chat messages, requests, responses. *)
Module openaigo.

(** A tool call as the vendor returns it and as an assistant turn carries
    it: [ID], [Function.Name], [Function.Arguments]. *)
Record ToolCall : Type := mkToolCall {
  ID : string;
  Function_Name : string;
  Function_Arguments : string
}.

(** [ChatCompletionMessageParamUnion], one constructor per variant the
    code builds. *)
Inductive ChatCompletionMessageParamUnion : Type :=
| OfSystem (content : string)
| OfUser (content : string)
| OfAssistant (content : string) (tool_calls : list ToolCall)
| OfTool (content : string) (tool_call_id : string).

Definition SystemMessage (content : string) := OfSystem content.
Definition UserMessage (content : string) := OfUser content.
(** [openai.AssistantMessage(content)]: text only, no tool calls. *)
Definition AssistantMessage (content : string) := OfAssistant content [].
Definition ToolMessage (content toolCallID : string) := OfTool content toolCallID.

(** [resp.Choices[i].Message] *)
Record ChatCompletionMessage : Type := mkChatCompletionMessage {
  Content : string;
  ToolCalls : list ToolCall
}.

(** [ChatCompletion], reduced to the message of each choice. *)
Record ChatCompletion : Type := mkChatCompletion {
  Choices : list ChatCompletionMessage
}.

(** [ChatCompletionMessage.ToParam()] *)
Definition ToParam (m : ChatCompletionMessage) : ChatCompletionMessageParamUnion :=
  OfAssistant (Content m) (ToolCalls m).

(** One entry of the ["properties"] object of a tool definition. *)
Record ParamSchema : Type := mkParamSchema {
  schema_description : string;
  schema_type : string;
  schema_items : option string;
  schema_enum : option (list interfaces.any)
}.

(** [shared.FunctionDefinitionParam], its [Parameters] object spelled out
    as ["type"], ["properties"], ["required"]. *)
Record FunctionDefinitionParam : Type := mkFunctionDefinitionParam {
  Name : string;
  Description : string;
  Parameters_type : string;
  Parameters_properties : gmap string ParamSchema;
  Parameters_required : list string
}.

Record ResponseFormatJSONSchemaParam : Type := mkResponseFormatJSONSchemaParam {
  JSONSchema_Type : string;
  JSONSchema_Name : string;
  JSONSchema_Schema : interfaces.any
}.

(** [ChatCompletionNewParams]; an optional ([param.Opt]) field is [None]
    when the code leaves it unset and is then not transmitted. *)
Record ChatCompletionNewParams : Type := mkChatCompletionNewParams {
  Model : string;
  Messages : list ChatCompletionMessageParamUnion;
  Tools : list FunctionDefinitionParam;
  Temperature : option float;
  TopP : option float;
  FrequencyPenalty : option float;
  PresencePenalty : option float;
  Stop : list string;
  ParallelToolCalls : option bool;
  ReasoningEffort : string;
  ResponseFormat : option ResponseFormatJSONSchemaParam;
  User : option string
}.

End openaigo.

(** ** [pkg/llm/gemini/message_history.go] *)

Module gemini.
Section builder.

Variable Unmarshal : json.Unmarshaler.

(** One pass of the loop over [msg.ToolCalls]: decode the arguments, fall
    back to [make(map[string]interface{})] on error, wrap in a part. *)
Definition functionCallPart (toolCall : interfaces.ToolCall) : genai.Part :=
  let args :=
    match Unmarshal (interfaces.Arguments toolCall) with
    | inl args => args
    | inr _err => Some ∅
    end in
  genai.FunctionCallPart (genai.mkFunctionCall (interfaces.Name toolCall) args).

(** [convertMemoryMessage]; [None] is the nil [*genai.Content]. *)
Definition convertMemoryMessage (msg : interfaces.Message) : option genai.Content :=
  match interfaces.Role msg with
  | interfaces.MessageRoleUser =>
      Some (genai.mkContent "user" [genai.TextPart (interfaces.Content msg)])
  | interfaces.MessageRoleAssistant =>
      if decide (0 < length (interfaces.ToolCalls msg)) then
        let parts := [] in
        let parts :=
          if decide (interfaces.Content msg ≠ "")
          then parts ++ [genai.TextPart (interfaces.Content msg)]
          else parts in
        let parts :=
          foldl (fun parts toolCall => parts ++ [functionCallPart toolCall])
                parts (interfaces.ToolCalls msg) in
        Some (genai.mkContent "model" parts)
      else if decide (interfaces.Content msg ≠ "") then
        Some (genai.mkContent "model" [genai.TextPart (interfaces.Content msg)])
      else None
  | interfaces.MessageRoleTool =>
      if decide (interfaces.ToolCallID msg ≠ "") then
        let toolName := "unknown" in
        let toolName :=
          match interfaces.Metadata msg with
          | Some metadata =>
              match metadata !! "tool_name" with
              | Some (interfaces.AnyString name) => name
              | _ => toolName
              end
          | None => toolName
          end in
        Some (genai.mkContent "user"
                [genai.FunctionResponsePart
                   (genai.mkFunctionResponse toolName
                      {[ "result" := interfaces.AnyString (interfaces.Content msg) ]})])
      else None
  | interfaces.MessageRoleSystem =>
      Some (genai.mkContent "user"
              [genai.TextPart ("System: " +:+ interfaces.Content msg)])
  | interfaces.MessageRoleOther _ => None
  end.

(** The [for _, msg := range memoryMessages] loop: append every non-nil
    conversion. *)
Definition appendConverted (contents : list genai.Content)
    (memoryMessages : list interfaces.Message) : list genai.Content :=
  foldl (fun contents msg =>
           match convertMemoryMessage msg with
           | Some geminiContent => contents ++ [geminiContent]
           | None => contents
           end) contents memoryMessages.

(** [buildContents(ctx, prompt, params)]; only [params.Memory] is read. *)
Definition buildContents (prompt : string) (memory : option interfaces.Memory)
    : list genai.Content :=
  let contents := [] in
  match memory with
  | Some memory =>
      match interfaces.GetMessages memory with
      | inr _err => contents
      | inl memoryMessages => appendConverted contents memoryMessages
      end
  | None => contents ++ [genai.mkContent "user" [genai.TextPart prompt]]
  end.

End builder.
End gemini.

(** ** [pkg/llm/azureopenai/message_history.go] *)

Module azureopenai.

(** [convertMemoryMessage]; [None] is the nil pointer. *)
Definition convertMemoryMessage (msg : interfaces.Message)
    : option openaigo.ChatCompletionMessageParamUnion :=
  match interfaces.Role msg with
  | interfaces.MessageRoleUser =>
      Some (openaigo.UserMessage (interfaces.Content msg))
  | interfaces.MessageRoleAssistant =>
      if decide (interfaces.Content msg ≠ "")
      then Some (openaigo.AssistantMessage (interfaces.Content msg))
      else None
  | interfaces.MessageRoleTool =>
      if decide (interfaces.ToolCallID msg ≠ "")
      then Some (openaigo.ToolMessage (interfaces.Content msg) (interfaces.ToolCallID msg))
      else None
  | interfaces.MessageRoleSystem =>
      Some (openaigo.SystemMessage (interfaces.Content msg))
  | interfaces.MessageRoleOther _ => None
  end.

Definition appendConverted (messages : list openaigo.ChatCompletionMessageParamUnion)
    (memoryMessages : list interfaces.Message)
    : list openaigo.ChatCompletionMessageParamUnion :=
  foldl (fun messages msg =>
           match convertMemoryMessage msg with
           | Some openaiMsg => messages ++ [openaiMsg]
           | None => messages
           end) messages memoryMessages.

(** [buildMessages(ctx, prompt, memory)] *)
Definition buildMessages (prompt : string) (memory : option interfaces.Memory)
    : list openaigo.ChatCompletionMessageParamUnion :=
  let messages := [] in
  match memory with
  | Some memory =>
      match interfaces.GetMessages memory with
      | inr _err => messages
      | inl memoryMessages => appendConverted messages memoryMessages
      end
  | None => messages ++ [openaigo.UserMessage prompt]
  end.

End azureopenai.

(** ** [pkg/retry] *)

Module retry.

(** An operation [func() error] together with the variables it captures:
    a step on the captured state that yields nil ([None]) or an error. *)
Definition Operation (S : Type) : Type := S -> option string * S.

(** Modelled from the spec: [pkg/retry] is not among the sources.  The
    spec gives the Retry Executor as "[Execute(context, operation: () ->
    error) -> error]; operation is retried per a configured policy
    (count/backoff), opaque to the core".  An executor is therefore any
    way of running an operation some number of times. *)
Record Executor : Type := mkExecutor {
  Execute : forall S : Type, Operation S -> Operation S
}.

(** Run [op]; while it fails and retries are left, run it again. *)
Fixpoint attempts {S : Type} (retries : nat) (op : Operation S) (s : S)
    : option string * S :=
  match op s with
  | (None, s') => (None, s')
  | (Some err, s') =>
      match retries with
      | O => (Some err, s')
      | S retries' => attempts retries' op s'
      end
  end.

(** Modelled from the spec: an executor whose policy is a retry count. *)
Definition NewExecutor (maxRetries : nat) : Executor :=
  mkExecutor (fun S => attempts maxRetries).

End retry.

(** ** [pkg/llm]: the message and parameter types of [Chat] *)

Module llm.

(** [llm.Message], with the fields [Chat] reads; the role is a plain string. *)
Record Message : Type := mkMessage {
  Role : string;
  Content : string;
  ToolCallID : string
}.

(** [llm.GenerateParams], with the fields [Chat] reads. *)
Record GenerateParams : Type := mkGenerateParams {
  Temperature : float;
  TopP : float;
  FrequencyPenalty : float;
  PresencePenalty : float;
  StopSequences : list string;
  Reasoning : string
}.

End llm.

(** ** [pkg/llm/openai/client.go] *)

Module openai.

Definition reasoningModels : list string :=
  [ "o1-"; "o1-mini"; "o1-preview";
    "o3-"; "o3-mini";
    "o4-"; "o4-mini";
    "gpt-5"; "gpt-5-mini"; "gpt-5-nano" ].

(** [isReasoningModel]: some entry of the table is a prefix of [model]. *)
Definition isReasoningModel (model : string) : bool :=
  existsb (fun prefix => gostrings.HasPrefix model prefix) reasoningModels.

(** The request context: the tenant that [multitenancy.GetOrgID(ctx)]
    finds ([""] for none) and the value stored under [organizationKey]. *)
Record Context : Type := mkContext {
  GetOrgID : string;
  organization : option string
}.

(** [WithTemperature] and its siblings write through [options.LLMConfig]
    without a nil check. *)
Definition withLLMConfig (f : interfaces.LLMConfig -> interfaces.LLMConfig)
    : interfaces.GenerateOption :=
  Some (fun options =>
    match interfaces.LLMConfig_ options with
    | None => None
    | Some cfg =>
        Some (interfaces.mkGenerateOptions (Some (f cfg))
                (interfaces.Memory_ options) (interfaces.SystemMessage options)
                (interfaces.ResponseFormat_ options) (interfaces.MaxIterations options))
    end).

Definition WithTemperature (temperature : float) : interfaces.GenerateOption :=
  withLLMConfig (fun cfg =>
    interfaces.mkLLMConfig temperature (interfaces.TopP cfg)
      (interfaces.FrequencyPenalty cfg) (interfaces.PresencePenalty cfg)
      (interfaces.StopSequences cfg) (interfaces.Reasoning cfg)).

Definition WithTopP (topP : float) : interfaces.GenerateOption :=
  withLLMConfig (fun cfg =>
    interfaces.mkLLMConfig (interfaces.Temperature cfg) topP
      (interfaces.FrequencyPenalty cfg) (interfaces.PresencePenalty cfg)
      (interfaces.StopSequences cfg) (interfaces.Reasoning cfg)).

Definition WithSystemMessage (systemMessage : string) : interfaces.GenerateOption :=
  Some (fun options =>
    Some (interfaces.mkGenerateOptions (interfaces.LLMConfig_ options)
            (interfaces.Memory_ options) systemMessage
            (interfaces.ResponseFormat_ options) (interfaces.MaxIterations options))).

Definition WithFrequencyPenalty (frequencyPenalty : float) : interfaces.GenerateOption :=
  withLLMConfig (fun cfg =>
    interfaces.mkLLMConfig (interfaces.Temperature cfg) (interfaces.TopP cfg)
      frequencyPenalty (interfaces.PresencePenalty cfg)
      (interfaces.StopSequences cfg) (interfaces.Reasoning cfg)).

Definition WithPresencePenalty (presencePenalty : float) : interfaces.GenerateOption :=
  withLLMConfig (fun cfg =>
    interfaces.mkLLMConfig (interfaces.Temperature cfg) (interfaces.TopP cfg)
      (interfaces.FrequencyPenalty cfg) presencePenalty
      (interfaces.StopSequences cfg) (interfaces.Reasoning cfg)).

Definition WithStopSequences (stopSequences : list string) : interfaces.GenerateOption :=
  withLLMConfig (fun cfg =>
    interfaces.mkLLMConfig (interfaces.Temperature cfg) (interfaces.TopP cfg)
      (interfaces.FrequencyPenalty cfg) (interfaces.PresencePenalty cfg)
      stopSequences (interfaces.Reasoning cfg)).

Definition WithResponseFormat (format : interfaces.ResponseFormat)
    : interfaces.GenerateOption :=
  Some (fun options =>
    Some (interfaces.mkGenerateOptions (interfaces.LLMConfig_ options)
            (interfaces.Memory_ options) (interfaces.SystemMessage options)
            (Some format) (interfaces.MaxIterations options))).

(** [WithReasoning] is the one option that installs an empty [LLMConfig]
    when there is none. *)
Definition WithReasoning (reasoning : string) : interfaces.GenerateOption :=
  Some (fun options =>
    let cfg :=
      match interfaces.LLMConfig_ options with
      | None => interfaces.mkLLMConfig 0%float 0%float 0%float 0%float [] ""
      | Some cfg => cfg
      end in
    Some (interfaces.mkGenerateOptions
            (Some (interfaces.mkLLMConfig (interfaces.Temperature cfg) (interfaces.TopP cfg)
                     (interfaces.FrequencyPenalty cfg) (interfaces.PresencePenalty cfg)
                     (interfaces.StopSequences cfg) reasoning))
            (interfaces.Memory_ options) (interfaces.SystemMessage options)
            (interfaces.ResponseFormat_ options) (interfaces.MaxIterations options))).

(** The [params] that [Generate] starts from: an [LLMConfig] with
    temperature 0.7, everything else zero. *)
Definition generateDefaults : interfaces.GenerateOptions :=
  interfaces.mkGenerateOptions
    (Some (interfaces.mkLLMConfig 0.7%float 0%float 0%float 0%float [] ""))
    None "" None 0.

(** [for _, option := range options { option(params) }]: calling a nil
    function panics. *)
Fixpoint applyOptions (options : list interfaces.GenerateOption)
    (params : interfaces.GenerateOptions) : option interfaces.GenerateOptions :=
  match options with
  | [] => Some params
  | None :: _ => None
  | Some option :: options' =>
      match option params with
      | None => None
      | Some params' => applyOptions options' params'
      end
  end.

(** The same loop guarded by [if opt != nil]. *)
Fixpoint applyNonNilOptions (options : list interfaces.GenerateOption)
    (params : interfaces.GenerateOptions) : option interfaces.GenerateOptions :=
  match options with
  | [] => Some params
  | None :: options' => applyNonNilOptions options' params
  | Some opt :: options' =>
      match opt params with
      | None => None
      | Some params' => applyNonNilOptions options' params'
      end
  end.

(** The schema entry built for one declared parameter. *)
Definition paramSchema (param : interfaces.ParameterSpec) : openaigo.ParamSchema :=
  let paramType := interfaces.ParameterSpec_Type param in
  let paramType := if decide (paramType = "integer") then "number" else paramType in
  openaigo.mkParamSchema
    (interfaces.ParameterSpec_Description param)
    paramType
    (if decide (paramType = "array") then
       Some (match interfaces.ParameterSpec_Items param with
             | Some items =>
                 if decide (interfaces.ParameterSpec_Type items ≠ "")
                 then interfaces.ParameterSpec_Type items
                 else "string"
             | None => "string"
             end)
     else None)
    (interfaces.ParameterSpec_Enum param).

Section client.

(** The state of everything outside the process. *)
Variable W : Type.

Local Abbreviation Tool := (interfaces.Tool W).

(** The fields of [OpenAIClient] that the methods read;
    [Completions_New] is [c.ChatService.Completions.New]. *)
Record OpenAIClient : Type := mkOpenAIClient {
  Model : string;
  retryExecutor : option retry.Executor;
  Completions_New :
    openaigo.ChatCompletionNewParams -> W -> (openaigo.ChatCompletion + string) * W
}.

(** The outside world together with the log of the requests sent to the
    vendor so far. *)
Record State : Type := mkState {
  world : W;
  sent : list openaigo.ChatCompletionNewParams
}.

(** One vendor request: the call, recorded in the log. *)
Definition send (c : OpenAIClient) (req : openaigo.ChatCompletionNewParams)
    (st : State) : (openaigo.ChatCompletion + string) * State :=
  let '(r, w') := Completions_New c req (world st) in
  (r, mkState w' (sent st ++ [req])).

(** [newMessageHistoryBuilder(c.logger).buildMessages]: the builder of
    package [openai] is not among the sources and is taken as given. *)
Variable buildMessages :
  string -> option interfaces.Memory -> list openaigo.ChatCompletionMessageParamUnion.

Definition getTemperatureForModel (c : OpenAIClient) (requestedTemp : float) : float :=
  if isReasoningModel (Model c) then 1%float else requestedTemp.

(** The [openaiTools[i]] built for one tool.  Go ranges over the
    parameter map in an unspecified order; here the order is that of
    [map_to_list]. *)
Definition toolDefinition (tool : Tool) : openaigo.FunctionDefinitionParam :=
  openaigo.mkFunctionDefinitionParam
    (interfaces.Tool_Name tool) (interfaces.Tool_Description tool) "object"
    (paramSchema <$> interfaces.Parameters tool)
    (fst <$> filter (fun np => interfaces.ParameterSpec_Required np.2 = true)
                    (map_to_list (interfaces.Parameters tool))).

(** *** [Generate] *)

(** The request that [Generate] assembles from the applied options. *)
Definition generateRequest (c : OpenAIClient) (ctx : Context) (prompt : string)
    (params : interfaces.GenerateOptions) : openaigo.ChatCompletionNewParams :=
  let orgID := GetOrgID ctx in
  let ctx := if decide (orgID ≠ "") then mkContext (GetOrgID ctx) (Some orgID) else ctx in
  let messages := [] in
  let messages :=
    if decide (interfaces.SystemMessage params ≠ "")
    then messages ++ [openaigo.SystemMessage (interfaces.SystemMessage params)]
    else messages in
  let messages := messages ++ buildMessages prompt (interfaces.Memory_ params) in
  let cfg := interfaces.LLMConfig_ params in
  openaigo.mkChatCompletionNewParams
    (Model c)
    messages
    []
    ((fun cfg => getTemperatureForModel c (interfaces.Temperature cfg)) <$> cfg)
    (cfg ≫= fun cfg =>
       if negb (isReasoningModel (Model c)) then Some (interfaces.TopP cfg) else None)
    (interfaces.FrequencyPenalty <$> cfg)
    (interfaces.PresencePenalty <$> cfg)
    (match cfg with
     | Some cfg =>
         if decide (0 < length (interfaces.StopSequences cfg))
         then interfaces.StopSequences cfg else []
     | None => []
     end)
    None
    (match cfg with
     | Some cfg =>
         if isReasoningModel (Model c) && bool_decide (interfaces.Reasoning cfg ≠ "")
         then interfaces.Reasoning cfg else ""
     | None => ""
     end)
    ((fun format =>
        openaigo.mkResponseFormatJSONSchemaParam "json_schema"
          (interfaces.ResponseFormat_Name format) (interfaces.Schema format))
       <$> interfaces.ResponseFormat_ params)
    (match organization ctx with
     | Some orgID => if decide (orgID ≠ "") then Some orgID else None
     | None => None
     end).

(** The closure [operation] of [Generate]: it captures the response
    variable [resp], which it overwrites on every run. *)
Definition generateOperation (c : OpenAIClient)
    (req : openaigo.ChatCompletionNewParams)
    : retry.Operation (State * option openaigo.ChatCompletion) :=
  fun '(st, _resp) =>
    match send c req st with
    | (inr err, st') => (Some ("failed to generate text: " +:+ err), (st', None))
    | (inl resp, st') => (None, (st', Some resp))
    end.

Definition Generate (c : OpenAIClient) (ctx : Context) (prompt : string)
    (options : list interfaces.GenerateOption) (st : State) : Outcome * State :=
  match applyOptions options generateDefaults with
  | None => (Panics, st)
  | Some params =>
      let req := generateRequest c ctx prompt params in
      let operation := generateOperation c req in
      let '(err, (st, resp)) :=
        match retryExecutor c with
        | Some executor => retry.Execute executor _ operation (st, None)
        | None => operation (st, None)
        end in
      match err with
      | Some err => (Returns "" (Some err), st)
      | None =>
          match resp with
          | None => (Panics, st)
          | Some resp =>
              match openaigo.Choices resp with
              | choice :: _ => (Returns (openaigo.Content choice) None, st)
              | [] => (Returns "" (Some "no response from OpenAI API"), st)
              end
          end
      end
  end.

(** *** [Chat] *)

(** [llm.DefaultGenerateParams()]: package [llm] is not among the sources
    and its defaults are taken as given. *)
Variable DefaultGenerateParams : llm.GenerateParams.

(** The [switch msg.Role] of [Chat]: unknown roles become user messages. *)
Definition chatMessage (msg : llm.Message) : openaigo.ChatCompletionMessageParamUnion :=
  if decide (llm.Role msg = "system") then openaigo.SystemMessage (llm.Content msg)
  else if decide (llm.Role msg = "user") then openaigo.UserMessage (llm.Content msg)
  else if decide (llm.Role msg = "assistant") then openaigo.AssistantMessage (llm.Content msg)
  else if decide (llm.Role msg = "tool")
       then openaigo.ToolMessage (llm.Content msg) (llm.ToolCallID msg)
  else openaigo.UserMessage (llm.Content msg).

(** The request that [Chat] assembles; [params] is already non-nil. *)
Definition chatRequest (c : OpenAIClient) (messages : list llm.Message)
    (params : llm.GenerateParams) : openaigo.ChatCompletionNewParams :=
  let chatMessages := chatMessage <$> messages in
  openaigo.mkChatCompletionNewParams
    (Model c)
    chatMessages
    []
    (Some (getTemperatureForModel c (llm.Temperature params)))
    (if negb (isReasoningModel (Model c)) then Some (llm.TopP params) else None)
    (Some (llm.FrequencyPenalty params))
    (Some (llm.PresencePenalty params))
    (if decide (0 < length (llm.StopSequences params))
     then llm.StopSequences params else [])
    None
    (if isReasoningModel (Model c) && bool_decide (llm.Reasoning params ≠ "")
     then llm.Reasoning params else "")
    None
    None.

(** The closure [operation] of [Chat]. *)
Definition chatOperation (c : OpenAIClient) (req : openaigo.ChatCompletionNewParams)
    : retry.Operation (State * option openaigo.ChatCompletion) :=
  fun '(st, _resp) =>
    match send c req st with
    | (inr err, st') => (Some ("failed to create chat completion: " +:+ err), (st', None))
    | (inl resp, st') => (None, (st', Some resp))
    end.

Definition Chat (c : OpenAIClient) (ctx : Context) (messages : list llm.Message)
    (params : option llm.GenerateParams) (st : State) : Outcome * State :=
  let params :=
    match params with
    | None => DefaultGenerateParams
    | Some params => params
    end in
  let req := chatRequest c messages params in
  let operation := chatOperation c req in
  let '(err, (st, resp)) :=
    match retryExecutor c with
    | Some executor => retry.Execute executor _ operation (st, None)
    | None => operation (st, None)
    end in
  match err with
  | Some err => (Returns "" (Some err), st)
  | None =>
      match resp with
      | None => (Panics, st)
      | Some resp =>
          match openaigo.Choices resp with
          | [] => (Returns "" (Some "no completions returned"), st)
          | choice :: _ => (Returns (openaigo.Content choice) None, st)
          end
      end
  end.

(** *** [GenerateWithTools] *)

(** The inner [for _, t := range tools] search: the first tool of that
    name, [None] when [selectedTool] stays nil. *)
Definition selectTool (tools : list Tool) (name : string) : option Tool :=
  List.find (fun t => bool_decide (interfaces.Tool_Name t = name)) tools.

(** [toolResultContent] for one tool call. *)
Definition toolResult (tools : list Tool) (toolCall : openaigo.ToolCall) (st : State)
    : string * State :=
  match selectTool tools (openaigo.Function_Name toolCall) with
  | None => ("Error: tool not found: " +:+ openaigo.Function_Name toolCall, st)
  | Some selectedTool =>
      match interfaces.Execute selectedTool (openaigo.Function_Arguments toolCall) (world st) with
      | (inr err, w') => ("Error: " +:+ err, mkState w' (sent st))
      | (inl result, w') => (result, mkState w' (sent st))
      end
  end.

(** The loop over [responseMessage.ToolCalls]: one tool message appended
    per call. *)
Fixpoint processToolCalls (tools : list Tool) (toolCalls : list openaigo.ToolCall)
    (messages : list openaigo.ChatCompletionMessageParamUnion) (st : State)
    : list openaigo.ChatCompletionMessageParamUnion * State :=
  match toolCalls with
  | [] => (messages, st)
  | toolCall :: toolCalls' =>
      let '(toolResultContent, st) := toolResult tools toolCall st in
      processToolCalls tools toolCalls'
        (messages ++ [openaigo.ToolMessage toolResultContent (openaigo.ID toolCall)]) st
  end.

(** The request of one round. *)
Definition loopRequest (c : OpenAIClient) (cfg : interfaces.LLMConfig)
    (openaiTools : list openaigo.FunctionDefinitionParam)
    (messages : list openaigo.ChatCompletionMessageParamUnion)
    : openaigo.ChatCompletionNewParams :=
  let reasoning := isReasoningModel (Model c) in
  openaigo.mkChatCompletionNewParams
    (Model c)
    messages
    openaiTools
    (Some (getTemperatureForModel c (interfaces.Temperature cfg)))
    (if negb reasoning then Some (interfaces.TopP cfg) else None)
    (Some (interfaces.FrequencyPenalty cfg))
    (Some (interfaces.PresencePenalty cfg))
    (if decide (0 < length (interfaces.StopSequences cfg))
     then interfaces.StopSequences cfg else [])
    (if negb reasoning then Some true else None)
    ""
    None
    None.

(** [for iteration := 0; iteration < maxIterations; iteration++], by the
    number of rounds still allowed.  The final message list is returned
    next to the outcome. *)
Fixpoint toolLoop (c : OpenAIClient) (cfg : interfaces.LLMConfig)
    (tools : list Tool) (openaiTools : list openaigo.FunctionDefinitionParam)
    (remaining : nat)
    (messages : list openaigo.ChatCompletionMessageParamUnion) (st : State)
    : Outcome * list openaigo.ChatCompletionMessageParamUnion * State :=
  match remaining with
  | O => (Returns "" (Some "max iterations reached without a final answer"), messages, st)
  | S remaining' =>
      let req := loopRequest c cfg openaiTools messages in
      match send c req st with
      | (inr err, st) =>
          (Returns "" (Some ("failed to create chat completion: " +:+ err)), messages, st)
      | (inl resp, st) =>
          match openaigo.Choices resp with
          | [] => (Returns "" (Some "no completions returned"), messages, st)
          | responseMessage :: _ =>
              let messages := messages ++ [openaigo.ToParam responseMessage] in
              if decide (length (openaigo.ToolCalls responseMessage) = 0) then
                (Returns (gostrings.TrimSpace (openaigo.Content responseMessage)) None,
                 messages, st)
              else
                let '(messages, st) :=
                  processToolCalls tools (openaigo.ToolCalls responseMessage) messages st in
                toolLoop c cfg tools openaiTools remaining' messages st
          end
      end
  end.

(** [maxIterations], with the default for an unset value. *)
Definition maxIterationsOf (params : interfaces.GenerateOptions) : Z :=
  let maxIterations := interfaces.MaxIterations params in
  if decide (maxIterations = 0%Z) then 10%Z else maxIterations.

(** [params.LLMConfig], with the default installed when it is nil. *)
Definition llmConfigOf (params : interfaces.GenerateOptions) : interfaces.LLMConfig :=
  match interfaces.LLMConfig_ params with
  | Some cfg => cfg
  | None => interfaces.mkLLMConfig 0.7%float 1%float 0%float 0%float [] ""
  end.

(** The message list the first round starts from. *)
Definition initialMessages (prompt : string) (params : interfaces.GenerateOptions)
    : list openaigo.ChatCompletionMessageParamUnion :=
  let messages := buildMessages prompt (interfaces.Memory_ params) in
  if decide (interfaces.SystemMessage params ≠ "")
  then [openaigo.SystemMessage (interfaces.SystemMessage params)] ++ messages
  else messages.

(** [GenerateWithTools], with the message list it ends with. *)
Definition GenerateWithTools_run (c : OpenAIClient) (ctx : Context) (prompt : string)
    (tools : list Tool) (options : list interfaces.GenerateOption) (st : State)
    : Outcome * list openaigo.ChatCompletionMessageParamUnion * State :=
  match applyNonNilOptions options interfaces.zeroGenerateOptions with
  | None => (Panics, [], st)
  | Some params =>
      let cfg := llmConfigOf params in
      let maxIterations := maxIterationsOf params in
      let openaiTools := toolDefinition <$> tools in
      let messages := initialMessages prompt params in
      toolLoop c cfg tools openaiTools (Z.to_nat maxIterations) messages st
  end.

Definition GenerateWithTools (c : OpenAIClient) (ctx : Context) (prompt : string)
    (tools : list Tool) (options : list interfaces.GenerateOption) (st : State)
    : Outcome * State :=
  let '(outcome, _, st') := GenerateWithTools_run c ctx prompt tools options st in
  (outcome, st').

End client.

Arguments mkOpenAIClient {W}.
Arguments Model {W}.
Arguments retryExecutor {W}.
Arguments Completions_New {W}.
Arguments mkState {W}.
Arguments world {W}.
Arguments sent {W}.
Arguments send {W}.
Arguments getTemperatureForModel {W}.
Arguments toolDefinition {W}.
Arguments generateRequest {W}.
Arguments generateOperation {W}.
Arguments Generate {W}.
Arguments selectTool {W}.
Arguments toolResult {W}.
Arguments processToolCalls {W}.
Arguments loopRequest {W}.
Arguments toolLoop {W}.
Arguments GenerateWithTools_run {W}.
Arguments GenerateWithTools {W}.
Arguments chatRequest {W}.
Arguments chatOperation {W}.
Arguments Chat {W}.

End openai.

(** ** The tracing middleware: [TracedLLM] and [pkg/tracing/utils.go] *)

Module tracing.
Section middleware.

(** The outside world, the request context and the option values passed
    through to the wrapped client. *)
Variables W Ctx Opt : Type.

(** [time.Now()], in nanoseconds, read off the world. *)
Variable Now : W -> Z.

(** [fmt.Sprintf("%x", sha256.Sum256([]byte(s)))] *)
Variable sha256hex : string -> string.

Definition hashString (s : string) : string :=
  if decide (s = "") then "" else sha256hex s.

(** The wrapped [interfaces.LLM].  The two optional methods are probed
    with type assertions; [None] means the client does not have them. *)
Record LLM : Type := mkLLM {
  Generate : Ctx -> string -> list Opt -> W -> Outcome * W;
  Name : string;
  GenerateWithTools :
    option (Ctx -> string -> list (interfaces.Tool W) -> list Opt -> W -> Outcome * W);
  GetModel : option string
}.

(** What the tracer sees. *)
Inductive SpanEvent : Type :=
| StartSpan (name : string)
| SetAttribute (key : string) (value : interfaces.any)
| RecordError (err : string)
| End_.

(** The [interfaces.Tracer]: [StartSpan(ctx, name)] derives a context. *)
Record Tracer : Type := mkTracer {
  spanContext : Ctx -> string -> Ctx
}.

Record TracedLLM : Type := NewTracedLLM {
  llm : LLM;
  tracer : Tracer
}.

(** The outside world and the span events recorded so far. *)
Record State : Type := mkState {
  world : W;
  events : list SpanEvent
}.

(** The model name recorded on the span. *)
Definition modelName (m : TracedLLM) : string :=
  let model := "unknown" in
  let model := match GetModel (llm m) with Some model' => model' | None => model end in
  if decide (model = "") then Name (llm m) else model.

(** [duration.Milliseconds()] *)
Definition Milliseconds (startTime endTime : Z) : Z :=
  Z.quot (endTime - startTime) 1000000.

(** The attributes recorded once the wrapped call is back; the deferred
    [span.End()] runs last, also when the call panicked. *)
Definition responseEvents (startTime endTime : Z) (r : Outcome) : list SpanEvent :=
  match r with
  | Returns response None =>
      [ SetAttribute "response.length" (interfaces.AnyInt (Z.of_nat (String.length response)));
        SetAttribute "response.hash" (interfaces.AnyString (hashString response));
        SetAttribute "duration_ms" (interfaces.AnyInt (Milliseconds startTime endTime));
        End_ ]
  | Returns _ (Some err) => [ RecordError err; End_ ]
  | Panics => [ End_ ]
  end.

Definition TracedLLM_Generate (m : TracedLLM) (ctx : Ctx) (prompt : string)
    (options : list Opt) (st : State) : Outcome * State :=
  let startTime := Now (world st) in
  let ctx := spanContext (tracer m) ctx "llm.generate" in
  let before :=
    [ StartSpan "llm.generate";
      SetAttribute "prompt.length" (interfaces.AnyInt (Z.of_nat (String.length prompt)));
      SetAttribute "prompt.hash" (interfaces.AnyString (hashString prompt));
      SetAttribute "model" (interfaces.AnyString (modelName m)) ] in
  let '(r, w') := Generate (llm m) ctx prompt options (world st) in
  let endTime := Now w' in
  (r, mkState w' (events st ++ before ++ responseEvents startTime endTime r)).

Definition TracedLLM_GenerateWithTools (m : TracedLLM) (ctx : Ctx) (prompt : string)
    (tools : list (interfaces.Tool W)) (options : list Opt) (st : State)
    : Outcome * State :=
  match GenerateWithTools (llm m) with
  | Some llmWithTools =>
      let startTime := Now (world st) in
      let ctx := spanContext (tracer m) ctx "llm.generate_with_tools" in
      let before :=
        [ StartSpan "llm.generate_with_tools";
          SetAttribute "prompt.length" (interfaces.AnyInt (Z.of_nat (String.length prompt)));
          SetAttribute "prompt.hash" (interfaces.AnyString (hashString prompt));
          SetAttribute "tools.count" (interfaces.AnyInt (Z.of_nat (length tools)));
          SetAttribute "model" (interfaces.AnyString (modelName m)) ]
        ++ (if decide (0 < length tools) then
              [ SetAttribute "tools"
                  (interfaces.AnyString
                     (gostrings.Join (interfaces.Tool_Name <$> tools) ",")) ]
            else []) in
      let '(r, w') := llmWithTools ctx prompt tools options (world st) in
      let endTime := Now w' in
      (r, mkState w' (events st ++ before ++ responseEvents startTime endTime r))
  | None =>
      TracedLLM_Generate m ctx prompt options st
  end.

(** *** The streaming methods *)

(** The receive-only channel of stream events, as an opaque value. *)
Variable Stream : Type.

(** The [interfaces.StreamingLLM] methods of a wrapped client that has
    them; each returns Go's [(<-chan StreamEvent, error)] pair. *)
Record StreamingLLM : Type := mkStreamingLLM {
  GenerateStream : Ctx -> string -> list Opt -> W -> (option Stream * option string) * W;
  GenerateWithToolsStream :
    Ctx -> string -> list (interfaces.Tool W) -> list Opt -> W
    -> (option Stream * option string) * W
}.

(** [TracedLLM.GenerateStream]; [streamingLLM] is the result of the type
    assertion on the wrapped client, [None] when it fails. *)
Definition TracedLLM_GenerateStream (m : TracedLLM) (streamingLLM : option StreamingLLM)
    (ctx : Ctx) (prompt : string) (options : list Opt) (st : State)
    : (option Stream * option string) * State :=
  match streamingLLM with
  | None => ((None, Some "underlying LLM does not support streaming"), st)
  | Some streamingLLM =>
      let ctx := spanContext (tracer m) ctx "llm.generate_stream" in
      let before :=
        [ StartSpan "llm.generate_stream";
          SetAttribute "prompt.length" (interfaces.AnyInt (Z.of_nat (String.length prompt)));
          SetAttribute "prompt.hash" (interfaces.AnyString (hashString prompt));
          SetAttribute "streaming" (interfaces.AnyBool true);
          SetAttribute "model" (interfaces.AnyString (modelName m)) ] in
      let '(r, w') := GenerateStream streamingLLM ctx prompt options (world st) in
      (r, mkState w' (events st ++ before ++ [End_]))
  end.

(** [TracedLLM.GenerateWithToolsStream] *)
Definition TracedLLM_GenerateWithToolsStream (m : TracedLLM)
    (streamingLLM : option StreamingLLM) (ctx : Ctx) (prompt : string)
    (tools : list (interfaces.Tool W)) (options : list Opt) (st : State)
    : (option Stream * option string) * State :=
  match streamingLLM with
  | None => ((None, Some "underlying LLM does not support streaming"), st)
  | Some streamingLLM =>
      let ctx := spanContext (tracer m) ctx "llm.generate_with_tools_stream" in
      let before :=
        [ StartSpan "llm.generate_with_tools_stream";
          SetAttribute "prompt.length" (interfaces.AnyInt (Z.of_nat (String.length prompt)));
          SetAttribute "prompt.hash" (interfaces.AnyString (hashString prompt));
          SetAttribute "streaming" (interfaces.AnyBool true);
          SetAttribute "tools.count" (interfaces.AnyInt (Z.of_nat (length tools)));
          SetAttribute "model" (interfaces.AnyString (modelName m)) ]
        ++ (if decide (0 < length tools) then
              [ SetAttribute "tools"
                  (interfaces.AnyString
                     (gostrings.Join (interfaces.Tool_Name <$> tools) ",")) ]
            else []) in
      let '(r, w') :=
        GenerateWithToolsStream streamingLLM ctx prompt tools options (world st) in
      (r, mkState w' (events st ++ before ++ [End_]))
  end.

End middleware.

Arguments mkLLM {W Ctx Opt}.
Arguments Generate {W Ctx Opt}.
Arguments Name {W Ctx Opt}.
Arguments GenerateWithTools {W Ctx Opt}.
Arguments GetModel {W Ctx Opt}.
Arguments mkTracer {Ctx}.
Arguments spanContext {Ctx}.
Arguments NewTracedLLM {W Ctx Opt}.
Arguments llm {W Ctx Opt}.
Arguments tracer {W Ctx Opt}.
Arguments mkState {W}.
Arguments world {W}.
Arguments events {W}.
Arguments modelName {W Ctx Opt}.
Arguments TracedLLM_Generate {W Ctx Opt}.
Arguments TracedLLM_GenerateWithTools {W Ctx Opt}.
Arguments mkStreamingLLM {W Ctx Opt Stream}.
Arguments GenerateStream {W Ctx Opt Stream}.
Arguments GenerateWithToolsStream {W Ctx Opt Stream}.
Arguments TracedLLM_GenerateStream {W Ctx Opt}.
Arguments TracedLLM_GenerateWithToolsStream {W Ctx Opt}.

End tracing.

(** * Example inputs and statement helpers *)

(** The conversation of the builder's test: a greeting, a reply, and the
    current prompt already appended to memory. *)
Definition scenarioMemory : interfaces.Memory :=
  interfaces.mkMemory (inl
    [ interfaces.mkMessage interfaces.MessageRoleUser "Hi" [] "" None;
      interfaces.mkMessage interfaces.MessageRoleAssistant "Hello!" [] "" None;
      interfaces.mkMessage interfaces.MessageRoleUser "Continue" [] "" None ]).

(** An assistant turn that asks for the weather, and the tool's answer. *)
Definition weatherCall : interfaces.Message :=
  interfaces.mkMessage interfaces.MessageRoleAssistant "I'll check the weather"
    [ interfaces.mkToolCall "call_123" "get_weather" "{}";
      interfaces.mkToolCall "call_124" "get_time" "{oops" ] "" None.

Definition weatherResult : interfaces.Message :=
  interfaces.mkMessage interfaces.MessageRoleTool "Sunny" [] "call_123"
    (Some {[ "tool_name" := interfaces.AnyString "get_weather" ]}).

(** The text part of an assistant turn, present only for non-empty text. *)
Definition textParts (content : string) : list genai.Part :=
  if decide (content ≠ "") then [genai.TextPart content] else [].

(** The clients below run over a world that counts the vendor calls made.
    A reply that asks for the weather tool: *)
Definition askWeather : openaigo.ChatCompletionMessage :=
  openaigo.mkChatCompletionMessage "" [openaigo.mkToolCall "call_1" "get_weather" "{}"].

(** A vendor whose every reply asks for a tool. *)
Definition insistentClient : openai.OpenAIClient nat :=
  openai.mkOpenAIClient "gpt-4o-mini" None
    (fun _ calls => (inl (openaigo.mkChatCompletion [askWeather]), S calls)).

(** A vendor that answers at once, with white space around the text. *)
Definition directClient : openai.OpenAIClient nat :=
  openai.mkOpenAIClient "gpt-4o-mini" None
    (fun _ calls =>
       (inl (openaigo.mkChatCompletion [openaigo.mkChatCompletionMessage "  Paris. " []]),
        S calls)).

(** A weather tool that always fails. *)
Definition brokenWeather : interfaces.Tool nat :=
  interfaces.mkTool "get_weather" "Current weather" ∅
    (fun _ calls => (inr "upstream timeout", calls)).

(** A context without tenant, and the state before any vendor call. *)
Definition noContext : openai.Context := openai.mkContext "" None.

Definition start : openai.State nat := openai.mkState 0 [].

(** An option that sets the iteration budget. *)
Definition withMaxIterations (n : Z) : interfaces.GenerateOption :=
  Some (fun options =>
    Some (interfaces.mkGenerateOptions (interfaces.LLMConfig_ options)
            (interfaces.Memory_ options) (interfaces.SystemMessage options)
            (interfaces.ResponseFormat_ options) n)).

(** A vendor whose first call fails and whose later calls answer. *)
Definition flakyClient (executor : option retry.Executor) : openai.OpenAIClient nat :=
  openai.mkOpenAIClient "gpt-4o-mini" executor
    (fun _ calls =>
       match calls with
       | O => (inr "connection reset", 1%nat)
       | S _ =>
           (inl (openaigo.mkChatCompletion [openaigo.mkChatCompletionMessage "Paris." []]),
            S calls)
       end).

(** A reasoning-model client and an ordinary one, on a vendor that answers. *)
Definition reasoningClient (model : string) : openai.OpenAIClient nat :=
  openai.mkOpenAIClient model None
    (fun _ calls =>
       (inl (openaigo.mkChatCompletion [openaigo.mkChatCompletionMessage "ok" []]), S calls)).

(** A client without [GenerateWithTools]; it echoes the prompt and counts
    its calls. *)
Definition echoLLM : tracing.LLM nat (list string) unit :=
  tracing.mkLLM (fun _ prompt _ calls => (Returns ("echo: " +:+ prompt) None, S calls))
    "echo" None (Some "echo-1").

(** A tracer that records the span name in the context. *)
Definition listTracer : tracing.Tracer (list string) :=
  tracing.mkTracer (fun ctx name => name :: ctx).

(** A memory whose retrieval fails. *)
Definition failingMemory : interfaces.Memory := interfaces.mkMemory (inr "store offline").

(** [msg] with its [ToolCallID] replaced. *)
Definition withToolCallID (id : string) (msg : interfaces.Message) : interfaces.Message :=
  interfaces.mkMessage (interfaces.Role msg) (interfaces.Content msg)
    (interfaces.ToolCalls msg) id (interfaces.Metadata msg).

(** The three errors the tool loop can return. *)
Definition loopError (err : string) : Prop :=
  err = "max iterations reached without a final answer"
  \/ err = "no completions returned"
  \/ exists cause, err = "failed to create chat completion: " +:+ cause.

(** A tool with a required integer parameter and an optional array one. *)
Definition searchTool : interfaces.Tool nat :=
  interfaces.mkTool "search" "Search the index"
    {[ "limit" := interfaces.mkParameterSpec "integer" "How many hits" true None None;
       "tags" := interfaces.mkParameterSpec "array" "Tags to match" false None None ]}
    (fun _ calls => (inl "[]", calls)).

(** A span event that sets an attribute. *)
Definition isAttribute (e : tracing.SpanEvent) : Prop :=
  match e with
  | tracing.SetAttribute _ _ => True
  | _ => False
  end.

(** How an entry of [Chat]'s request relates to the message it came from. *)
Definition chatEntryOf (msg : llm.Message)
    (entry : openaigo.ChatCompletionMessageParamUnion) : Prop :=
  match entry with
  | openaigo.OfSystem text => llm.Role msg = "system" /\ text = llm.Content msg
  | openaigo.OfAssistant text calls =>
      llm.Role msg = "assistant" /\ text = llm.Content msg /\ calls = []
  | openaigo.OfTool text id =>
      llm.Role msg = "tool" /\ text = llm.Content msg /\ id = llm.ToolCallID msg
  | openaigo.OfUser text =>
      text = llm.Content msg
      /\ llm.Role msg ≠ "system" /\ llm.Role msg ≠ "assistant" /\ llm.Role msg ≠ "tool"
  end.

(** Representable turns as the spec describes them (section 4.1), written
    independently of any builder: a user or system turn always is; an
    assistant turn is unless it has neither text nor tool calls; a tool turn
    is unless its [toolCallID] is empty.  No other role exists in the spec. *)
Definition specRepresentable (msg : interfaces.Message) : Prop :=
  match interfaces.Role msg with
  | interfaces.MessageRoleUser | interfaces.MessageRoleSystem => True
  | interfaces.MessageRoleAssistant =>
      interfaces.Content msg ≠ "" \/ interfaces.ToolCalls msg ≠ []
  | interfaces.MessageRoleTool => interfaces.ToolCallID msg ≠ ""
  | interfaces.MessageRoleOther _ => False
  end.

(** A conversation in which the assistant answers with a tool call and no
    text: the request, the call, the tool's result. *)
Definition toolRoundMemory : interfaces.Memory :=
  interfaces.mkMemory (inl
    [ interfaces.mkMessage interfaces.MessageRoleUser "Get weather" [] "" None;
      interfaces.mkMessage interfaces.MessageRoleAssistant ""
        [interfaces.mkToolCall "call_123" "get_weather" "{}"] "" None;
      interfaces.mkMessage interfaces.MessageRoleTool "Sunny" [] "call_123"
        (Some {[ "tool_name" := interfaces.AnyString "get_weather" ]}) ]).

(** * Properties *)

(** ** The message-history builders *)

Section foldl_append.
Context {A B : Type}.

(** A loop that appends one element per input is a [map]. *)
Lemma foldl_snoc_map (f : A -> B) (l : list A) (acc : list B) :
  foldl (fun acc x => acc ++ [f x]) acc l = acc ++ (f <$> l).
Proof.
  revert acc. induction l as [|x l IH]; intros acc; simpl.
  - by rewrite app_nil_r.
  - rewrite IH. by rewrite <- app_assoc.
Qed.

(** A loop that appends the non-nil conversions is an [omap]. *)
Lemma foldl_snoc_omap (f : A -> option B) (l : list A) (acc : list B) :
  foldl (fun acc x => match f x with Some y => acc ++ [y] | None => acc end) acc l
  = acc ++ omap f l.
Proof.
  revert acc. induction l as [|x l IH]; intros acc; simpl.
  - by rewrite app_nil_r.
  - rewrite IH. destruct (f x); simpl; [by rewrite <- app_assoc | done].
Qed.

(** When nothing is dropped, the conversions are the outputs, one per
    input and in the same order. *)
Lemma omap_all_Some (f : A -> option B) (l : list A) :
  (forall x, x ∈ l -> f x ≠ None) ->
  Some <$> omap f l = f <$> l.
Proof.
  induction l as [|x l IH]; intros Hall; simpl; [done|].
  assert (Hx : f x ≠ None) by (apply Hall; left).
  destruct (f x) as [y|]; [|done]. simpl. f_equal.
  apply IH. intros z Hz. apply Hall. by right.
Qed.
End foldl_append.

Lemma gemini_appendConverted_omap U acc msgs :
  gemini.appendConverted U acc msgs = acc ++ omap (gemini.convertMemoryMessage U) msgs.
Proof. apply foldl_snoc_omap. Qed.

Lemma azure_appendConverted_omap acc msgs :
  azureopenai.appendConverted acc msgs = acc ++ omap azureopenai.convertMemoryMessage msgs.
Proof. apply foldl_snoc_omap. Qed.

(** Which messages the Gemini builder drops. *)
Lemma gemini_convert_None U msg :
  gemini.convertMemoryMessage U msg = None <->
  (interfaces.Role msg = interfaces.MessageRoleAssistant
     /\ interfaces.ToolCalls msg = [] /\ interfaces.Content msg = "")
  \/ (interfaces.Role msg = interfaces.MessageRoleTool /\ interfaces.ToolCallID msg = "")
  \/ (exists r, interfaces.Role msg = interfaces.MessageRoleOther r).
Proof.
  unfold gemini.convertMemoryMessage.
  destruct msg as [role content calls id meta]; simpl.
  destruct role; repeat case_decide; simpl in *;
    try (split; [done | intros [(? & ? & ?) | [(? & ?) | (? & ?)]]; congruence]).
  - destruct calls; simpl in *; [lia|].
    split; [done | intros [(? & ? & ?) | [(? & ?) | (? & ?)]]; congruence].
  - destruct calls; simpl in *; [|lia].
    split; [intros _; left; split_and!; [done..|]|done].
    by destruct (decide (content = "")).
  - split; [intros _; right; left; split; [done|]|done].
    by destruct (decide (id = "")).
  - split; [intros _; right; right; eauto|done].
Qed.

(** Which messages the Azure OpenAI builder drops. *)
Lemma azure_convert_None msg :
  azureopenai.convertMemoryMessage msg = None <->
  (interfaces.Role msg = interfaces.MessageRoleAssistant /\ interfaces.Content msg = "")
  \/ (interfaces.Role msg = interfaces.MessageRoleTool /\ interfaces.ToolCallID msg = "")
  \/ (exists r, interfaces.Role msg = interfaces.MessageRoleOther r).
Proof.
  unfold azureopenai.convertMemoryMessage.
  destruct msg as [role content calls id meta]; simpl.
  destruct role; repeat case_decide; simpl in *;
    try (split; [done | intros [(? & ?) | [(? & ?) | (? & ?)]]; congruence]).
  - split; [intros _; left; split; [done|]|done].
    by destruct (decide (content = "")).
  - split; [intros _; right; left; split; [done|]|done].
    by destruct (decide (id = "")).
  - split; [intros _; right; right; eauto|done].
Qed.

(** C6: with a nil Memory Store, the built history is exactly one entry, the
    current prompt as a user turn; this holds for the Gemini builder and for
    the Azure OpenAI builder, for every prompt. *)
Theorem buildHistory_nil_memory (U : json.Unmarshaler) (prompt : string) :
  gemini.buildContents U prompt None = [genai.mkContent "user" [genai.TextPart prompt]]
  /\ azureopenai.buildMessages prompt None = [openaigo.UserMessage prompt].
Proof. split; reflexivity. Qed.

(** When no message converts to nil, the history has one entry per message,
    the i-th entry being the conversion of the i-th message. *)
Lemma buildHistory_all_converted (U : json.Unmarshaler) (prompt : string)
    (memory : interfaces.Memory) (msgs : list interfaces.Message) :
  interfaces.GetMessages memory = inl msgs ->
  (Forall (fun msg => is_Some (gemini.convertMemoryMessage U msg)) msgs ->
     length (gemini.buildContents U prompt (Some memory)) = length msgs
     /\ Some <$> gemini.buildContents U prompt (Some memory)
        = gemini.convertMemoryMessage U <$> msgs)
  /\ (Forall (fun msg => is_Some (azureopenai.convertMemoryMessage msg)) msgs ->
     length (azureopenai.buildMessages prompt (Some memory)) = length msgs
     /\ Some <$> azureopenai.buildMessages prompt (Some memory)
        = azureopenai.convertMemoryMessage <$> msgs).
Proof.
  intros Hget. split; intros Hall.
  - unfold gemini.buildContents. rewrite Hget, gemini_appendConverted_omap. simpl.
    assert (E : Some <$> omap (gemini.convertMemoryMessage U) msgs
                = gemini.convertMemoryMessage U <$> msgs).
    { apply omap_all_Some. intros x Hx Hnone.
      rewrite Forall_forall in Hall. destruct (Hall x Hx) as [y Hy]. congruence. }
    split; [|exact E].
    apply (f_equal length) in E. by rewrite !length_fmap in E.
  - unfold azureopenai.buildMessages. rewrite Hget, azure_appendConverted_omap. simpl.
    assert (E : Some <$> omap azureopenai.convertMemoryMessage msgs
                = azureopenai.convertMemoryMessage <$> msgs).
    { apply omap_all_Some. intros x Hx Hnone.
      rewrite Forall_forall in Hall. destruct (Hall x Hx) as [y Hy]. congruence. }
    split; [|exact E].
    apply (f_equal length) in E. by rewrite !length_fmap in E.
Qed.

(** The Gemini builder converts every representable turn. *)
Lemma gemini_converts_representable U msg :
  specRepresentable msg -> is_Some (gemini.convertMemoryMessage U msg).
Proof.
  intros Hrep. destruct (gemini.convertMemoryMessage U msg) as [entry|] eqn:Hconv;
    [by eexists|].
  exfalso. apply gemini_convert_None in Hconv. unfold specRepresentable in Hrep.
  destruct Hconv as [(Hrole & Hcalls & Hcontent) | [(Hrole & Hid) | (r & Hrole)]];
    rewrite Hrole in Hrep; [by destruct Hrep | done | done].
Qed.

(** The Azure OpenAI builder converts a representable turn unless it is an
    assistant turn without text. *)
Lemma azure_converts_representable msg :
  specRepresentable msg ->
  (interfaces.Role msg = interfaces.MessageRoleAssistant -> interfaces.Content msg ≠ "") ->
  is_Some (azureopenai.convertMemoryMessage msg).
Proof.
  intros Hrep Htext. destruct (azureopenai.convertMemoryMessage msg) as [entry|] eqn:Hconv;
    [by eexists|].
  exfalso. apply azure_convert_None in Hconv. unfold specRepresentable in Hrep.
  destruct Hconv as [(Hrole & Hcontent) | [(Hrole & Hid) | (r & Hrole)]].
  - by apply (Htext Hrole).
  - by rewrite Hrole in Hrep.
  - by rewrite Hrole in Hrep.
Qed.

(** Three representable turns, the middle one an assistant turn with a tool
    call and no text: the Gemini builder yields three entries, the Azure
    OpenAI builder only two, so for Azure the number of entries is not the
    number of representable messages. *)
Lemma azure_drops_representable_assistant :
  (forall msgs, interfaces.GetMessages toolRoundMemory = inl msgs ->
     Forall specRepresentable msgs /\ length msgs = 3)
  /\ length (gemini.buildContents json.flatUnmarshal "What's next?" (Some toolRoundMemory)) = 3
  /\ azureopenai.buildMessages "What's next?" (Some toolRoundMemory)
     = [openaigo.OfUser "Get weather"; openaigo.OfTool "Sunny" "call_123"]
  /\ ~ (forall (prompt : string) (memory : interfaces.Memory)
               (msgs : list interfaces.Message),
          interfaces.GetMessages memory = inl msgs ->
          Forall specRepresentable msgs ->
          length (azureopenai.buildMessages prompt (Some memory)) = length msgs).
Proof.
  assert (Hrep : forall msgs, interfaces.GetMessages toolRoundMemory = inl msgs ->
                   Forall specRepresentable msgs /\ length msgs = 3).
  { intros msgs Hget. inversion Hget; subst. split; [|reflexivity].
    constructor; [exact I|].
    constructor; [right; discriminate|].
    constructor; [unfold specRepresentable; simpl; discriminate|].
    constructor. }
  split_and!; [exact Hrep | reflexivity | reflexivity |].
  intros Hclaim.
  specialize (Hclaim "What's next?" toolRoundMemory _ eq_refl
                (proj1 (Hrep _ eq_refl))).
  vm_compute in Hclaim. discriminate Hclaim.
Qed.

(** C7 (amended): when [GetMessages] succeeds with N messages, all of them
    representable, the Gemini builder's history has exactly N entries, the
    i-th entry being the conversion of the i-th message; the Azure OpenAI
    builder's history has this property when, in addition, no assistant
    message has empty text. *)
Theorem buildHistory_one_entry_per_representable (U : json.Unmarshaler) (prompt : string)
    (memory : interfaces.Memory) (msgs : list interfaces.Message) :
  interfaces.GetMessages memory = inl msgs ->
  Forall specRepresentable msgs ->
  (length (gemini.buildContents U prompt (Some memory)) = length msgs
   /\ Some <$> gemini.buildContents U prompt (Some memory)
      = gemini.convertMemoryMessage U <$> msgs)
  /\ (Forall (fun msg => interfaces.Role msg = interfaces.MessageRoleAssistant ->
                         interfaces.Content msg ≠ "") msgs ->
      length (azureopenai.buildMessages prompt (Some memory)) = length msgs
      /\ Some <$> azureopenai.buildMessages prompt (Some memory)
         = azureopenai.convertMemoryMessage <$> msgs).
Proof.
  intros Hget Hrep.
  destruct (buildHistory_all_converted U prompt memory msgs Hget) as [Hg Ha].
  split.
  - apply Hg. eapply Forall_impl; [exact Hrep|].
    intros msg. apply gemini_converts_representable.
  - intros Htext. apply Ha.
    apply Forall_forall. intros msg Hin.
    rewrite Forall_forall in Hrep, Htext.
    apply azure_converts_representable; [by apply Hrep | by apply Htext].
Qed.

Lemma buildHistory_one_entry_per_representable_witness :
  length (gemini.buildContents json.flatUnmarshal "Continue" (Some scenarioMemory)) = 3
  /\ length (azureopenai.buildMessages "Continue" (Some scenarioMemory)) = 3.
Proof.
  assert (Hrep : Forall specRepresentable
            [ interfaces.mkMessage interfaces.MessageRoleUser "Hi" [] "" None;
              interfaces.mkMessage interfaces.MessageRoleAssistant "Hello!" [] "" None;
              interfaces.mkMessage interfaces.MessageRoleUser "Continue" [] "" None ]).
  { constructor; [exact I|].
    constructor; [left; discriminate|].
    constructor; [exact I|].
    constructor. }
  destruct (buildHistory_one_entry_per_representable json.flatUnmarshal "Continue"
              scenarioMemory _ eq_refl Hrep) as [[Hg _] Ha].
  split; [exact Hg|].
  apply Ha.
  constructor; [discriminate|].
  constructor; [discriminate|].
  constructor; [discriminate|].
  constructor.
Defined.

(** The scenario yields the roles user, model (Gemini's name for the
    assistant), user, in this order. *)
Example scenario_roles :
  genai.Role <$> gemini.buildContents json.flatUnmarshal "Continue" (Some scenarioMemory)
  = ["user"; "model"; "user"]
  /\ azureopenai.buildMessages "Continue" (Some scenarioMemory)
     = [openaigo.OfUser "Hi"; openaigo.OfAssistant "Hello!" []; openaigo.OfUser "Continue"].
Proof. split; reflexivity. Qed.

(** C8: a tool-role message with an empty [toolCallID] yields no entry,
    whatever its other fields; with a non-empty one it yields a tool-result
    turn: for Azure OpenAI a tool message keyed by the id, for Gemini a
    function response whose name is the string under
    [metadata["tool_name"]], and ["unknown"] when the map is nil, the key is
    absent, or the value is not a string. *)
Theorem convert_tool_message (U : json.Unmarshaler) (msg : interfaces.Message) :
  interfaces.Role msg = interfaces.MessageRoleTool ->
  (interfaces.ToolCallID msg = "" ->
     gemini.convertMemoryMessage U msg = None
     /\ azureopenai.convertMemoryMessage msg = None)
  /\ (interfaces.ToolCallID msg ≠ "" ->
     azureopenai.convertMemoryMessage msg
       = Some (openaigo.ToolMessage (interfaces.Content msg) (interfaces.ToolCallID msg))
     /\ exists toolName,
         gemini.convertMemoryMessage U msg
           = Some (genai.mkContent "user"
                     [genai.FunctionResponsePart
                        (genai.mkFunctionResponse toolName
                           {[ "result" := interfaces.AnyString (interfaces.Content msg) ]})])
         /\ (forall name,
               interfaces.Metadata msg ≫= (fun metadata => metadata !! "tool_name")
                 = Some (interfaces.AnyString name) -> toolName = name)
         /\ (interfaces.Metadata msg ≫= (fun metadata => metadata !! "tool_name") = None ->
               toolName = "unknown")
         /\ (forall v,
               interfaces.Metadata msg ≫= (fun metadata => metadata !! "tool_name") = Some v ->
               (forall name, v ≠ interfaces.AnyString name) -> toolName = "unknown")).
Proof.
  intros Hrole. unfold gemini.convertMemoryMessage, azureopenai.convertMemoryMessage.
  rewrite Hrole. split; intros Hid.
  - rewrite Hid. by split.
  - destruct (decide (interfaces.ToolCallID msg ≠ "")) as [_|]; [|done].
    split; [done|].
    destruct (interfaces.Metadata msg) as [metadata|]; simpl.
    + destruct (metadata !! "tool_name") as [v|] eqn:Hlook.
      * destruct v; (eexists; split; [reflexivity|]);
          (split_and!; [intros name' ?; congruence | done | intros v' Hv Hne]);
          try done.
        exfalso. inversion Hv; subst. by eapply Hne.
      * eexists; split; [reflexivity|]. split_and!; done.
    + eexists; split; [reflexivity|]. split_and!; done.
Qed.

Lemma convert_tool_message_witness :
  exists toolName,
    gemini.convertMemoryMessage json.flatUnmarshal weatherResult
      = Some (genai.mkContent "user"
                [genai.FunctionResponsePart
                   (genai.mkFunctionResponse toolName
                      {[ "result" := interfaces.AnyString "Sunny" ]})])
    /\ toolName = "get_weather".
Proof.
  destruct (convert_tool_message json.flatUnmarshal weatherResult eq_refl) as [_ H].
  destruct H as [_ (toolName & Hconv & Hname & _)]; [discriminate|].
  exists toolName. split; [exact Hconv|]. apply Hname. reflexivity.
Defined.

(** The Azure OpenAI builder, given an assistant message with a tool call,
    produces an assistant turn without any tool-call entry when the message
    has text, and no entry at all when it has none. *)
Lemma azure_assistant_tool_calls_not_carried :
  azureopenai.convertMemoryMessage
    (interfaces.mkMessage interfaces.MessageRoleAssistant "Checking"
       [interfaces.mkToolCall "call_1" "get_weather" "{}"] "" None)
  = Some (openaigo.OfAssistant "Checking" [])
  /\ azureopenai.convertMemoryMessage
       (interfaces.mkMessage interfaces.MessageRoleAssistant ""
          [interfaces.mkToolCall "call_1" "get_weather" "{}"] "" None)
     = None
  /\ ~ (forall msg : interfaces.Message,
          interfaces.Role msg = interfaces.MessageRoleAssistant ->
          interfaces.ToolCalls msg ≠ [] ->
          exists text calls,
            azureopenai.convertMemoryMessage msg = Some (openaigo.OfAssistant text calls)
            /\ length calls = length (interfaces.ToolCalls msg)).
Proof.
  split_and!; [reflexivity | reflexivity |].
  intros H.
  destruct (H (interfaces.mkMessage interfaces.MessageRoleAssistant "Checking"
                 [interfaces.mkToolCall "call_1" "get_weather" "{}"] "" None)
              eq_refl ltac:(discriminate)) as (text & calls & Hconv & Hlen).
  vm_compute in Hconv. inversion Hconv; subst. discriminate Hlen.
Qed.

(** C3 (amended): for an assistant message with a non-empty [toolCalls]
    list, the Gemini builder yields a model turn whose parts are the text,
    when non-empty, followed by one function-call part per ToolCall in the
    order of the calls, each with the call's name and with the decoded
    arguments, or an empty object when decoding fails; the Azure OpenAI
    builder treats the message as a regular assistant message and, when its
    text is non-empty, yields an assistant turn with that text and no
    tool-call entry. *)
Theorem convert_assistant_tool_calls (U : json.Unmarshaler) (msg : interfaces.Message) :
  interfaces.Role msg = interfaces.MessageRoleAssistant ->
  interfaces.ToolCalls msg ≠ [] ->
  gemini.convertMemoryMessage U msg
    = Some (genai.mkContent "model"
              (textParts (interfaces.Content msg)
               ++ ((fun toolCall =>
                      genai.FunctionCallPart
                        (genai.mkFunctionCall (interfaces.Name toolCall)
                           (match U (interfaces.Arguments toolCall) with
                            | inl args => args
                            | inr _ => Some ∅
                            end)))
                     <$> interfaces.ToolCalls msg)))
  /\ (interfaces.Content msg ≠ "" ->
      azureopenai.convertMemoryMessage msg
        = Some (openaigo.OfAssistant (interfaces.Content msg) [])).
Proof.
  intros Hrole Hcalls. split.
  - unfold gemini.convertMemoryMessage. rewrite Hrole.
    destruct (decide (0 < length (interfaces.ToolCalls msg))) as [_|Hlen].
    + rewrite foldl_snoc_map. unfold textParts.
      by destruct (decide (interfaces.Content msg ≠ "")).
    + destruct (interfaces.ToolCalls msg); [done | simpl in Hlen; lia].
  - intros Hcontent. unfold azureopenai.convertMemoryMessage. rewrite Hrole.
    by destruct (decide (interfaces.Content msg ≠ "")).
Qed.

Lemma convert_assistant_tool_calls_witness :
  gemini.convertMemoryMessage json.flatUnmarshal weatherCall
    = Some (genai.mkContent "model"
              [ genai.TextPart "I'll check the weather";
                genai.FunctionCallPart (genai.mkFunctionCall "get_weather" (Some ∅));
                genai.FunctionCallPart (genai.mkFunctionCall "get_time" (Some ∅)) ])
  /\ azureopenai.convertMemoryMessage weatherCall
     = Some (openaigo.OfAssistant "I'll check the weather" []).
Proof.
  destruct (convert_assistant_tool_calls json.flatUnmarshal weatherCall eq_refl
              ltac:(discriminate)) as [Hg Ha].
  split.
  - exact Hg.
  - apply Ha. discriminate.
Defined.

(** ** The tool loop of [GenerateWithTools] *)

Section tool_loop.
Context {W : Type}.
Implicit Types (c : openai.OpenAIClient W) (st : openai.State W).
Implicit Types (tools : list (interfaces.Tool W)).
Implicit Types (messages : list openaigo.ChatCompletionMessageParamUnion).

Lemma send_unfold c req st r w' :
  openai.Completions_New c req (openai.world st) = (r, w') ->
  openai.send c req st = (r, openai.mkState w' (openai.sent st ++ [req])).
Proof. intros H. unfold openai.send. by rewrite H. Qed.

(** Running a tool sends nothing to the vendor. *)
Lemma toolResult_sent tools toolCall st :
  openai.sent (openai.toolResult tools toolCall st).2 = openai.sent st.
Proof.
  unfold openai.toolResult.
  destruct (openai.selectTool tools _) as [t|]; [|done].
  by destruct (interfaces.Execute t _ _) as [[result|err] w'].
Qed.

Lemma processToolCalls_sent tools toolCalls messages st :
  openai.sent (openai.processToolCalls tools toolCalls messages st).2 = openai.sent st.
Proof.
  revert messages st. induction toolCalls as [|toolCall toolCalls IH]; intros messages st.
  - done.
  - simpl. pose proof (toolResult_sent tools toolCall st) as Hs.
    destruct (openai.toolResult tools toolCall st) as [text st1]. simpl in Hs.
    by rewrite IH.
Qed.

(** The calls are processed one after the other. *)
Lemma processToolCalls_app tools pre post messages st :
  openai.processToolCalls tools (pre ++ post) messages st
  = openai.processToolCalls tools post
      (openai.processToolCalls tools pre messages st).1
      (openai.processToolCalls tools pre messages st).2.
Proof.
  revert messages st. induction pre as [|toolCall pre IH]; intros messages st.
  - done.
  - simpl. destruct (openai.toolResult tools toolCall st) as [text st1]. apply IH.
Qed.

(** Earlier messages are kept and one message per call is appended. *)
Lemma processToolCalls_appends tools toolCalls messages st :
  exists results,
    (openai.processToolCalls tools toolCalls messages st).1 = messages ++ results
    /\ length results = length toolCalls.
Proof.
  revert messages st. induction toolCalls as [|toolCall toolCalls IH]; intros messages st.
  - exists []. by rewrite app_nil_r.
  - simpl. destruct (openai.toolResult tools toolCall st) as [text st1].
    destruct (IH (messages ++ [openaigo.ToolMessage text (openaigo.ID toolCall)]) st1)
      as (results & Heq & Hlen).
    exists (openaigo.ToolMessage text (openaigo.ID toolCall) :: results).
    split; [by rewrite Heq, <- app_assoc | simpl; by rewrite Hlen].
Qed.

(** A round whose reply carries tool calls goes on to the next round. *)
Lemma toolLoop_continues c cfg tools openaiTools n messages st resp w' responseMessage rest :
  openai.Completions_New c (openai.loopRequest c cfg openaiTools messages) (openai.world st)
    = (inl resp, w') ->
  openaigo.Choices resp = responseMessage :: rest ->
  openaigo.ToolCalls responseMessage ≠ [] ->
  openai.toolLoop c cfg tools openaiTools (S n) messages st
  = let round :=
      openai.processToolCalls tools (openaigo.ToolCalls responseMessage)
        (messages ++ [openaigo.ToParam responseMessage])
        (openai.mkState w'
           (openai.sent st ++ [openai.loopRequest c cfg openaiTools messages])) in
    openai.toolLoop c cfg tools openaiTools n round.1 round.2.
Proof.
  intros Hnew Hchoices Hcalls. simpl.
  rewrite (send_unfold _ _ _ _ _ Hnew), Hchoices.
  destruct (decide (length (openaigo.ToolCalls responseMessage) = 0)) as [Hlen|_].
  - destruct (openaigo.ToolCalls responseMessage); [done | discriminate Hlen].
  - by destruct (openai.processToolCalls _ _ _ _).
Qed.

(** With a vendor that asks for a tool in every reply, [n] rounds send
    [n] requests and end in the budget error. *)
Lemma toolLoop_exhausts c cfg tools openaiTools n messages st :
  (forall req w, exists resp w' responseMessage rest,
      openai.Completions_New c req w = (inl resp, w')
      /\ openaigo.Choices resp = responseMessage :: rest
      /\ openaigo.ToolCalls responseMessage ≠ []) ->
  exists reqs messages' st',
    openai.toolLoop c cfg tools openaiTools n messages st
    = (Returns "" (Some "max iterations reached without a final answer"), messages', st')
    /\ openai.sent st' = openai.sent st ++ reqs
    /\ length reqs = n.
Proof.
  intros Halways. revert messages st.
  induction n as [|n IH]; intros messages st.
  - exists [], messages, st. by rewrite app_nil_r.
  - destruct (Halways (openai.loopRequest c cfg openaiTools messages) (openai.world st))
      as (resp & w' & responseMessage & rest & Hnew & Hchoices & Hcalls).
    rewrite (toolLoop_continues _ _ _ _ _ _ _ _ _ _ _ Hnew Hchoices Hcalls). simpl.
    match goal with |- context [openai.processToolCalls ?t ?tc ?m ?s] =>
      pose proof (processToolCalls_sent t tc m s) as Hsent;
      destruct (IH (openai.processToolCalls t tc m s).1 (openai.processToolCalls t tc m s).2)
        as (reqs & messages' & st' & Hloop & Hlog & Hlen)
    end.
    exists (openai.loopRequest c cfg openaiTools messages :: reqs), messages', st'.
    split_and!; [exact Hloop | | simpl; by rewrite Hlen].
    rewrite Hlog, Hsent. simpl. by rewrite <- app_assoc.
Qed.

End tool_loop.

(** [TrimSpace] removes ASCII and Unicode white space at both ends (here a
    tab, a no-break space U+00A0, an em space U+2003 and a line feed) and
    nothing inside. *)
Example TrimSpace_examples :
  gostrings.TrimSpace "  Paris. " = "Paris."
  /\ gostrings.TrimSpace
       (gostrings.bytes [9; 194; 160] +:+ "New York" +:+ gostrings.bytes [226; 128; 131; 10])
     = "New York"
  /\ gostrings.TrimSpace "   " = ""
  /\ gostrings.TrimSpace "done" = "done".
Proof. split_and!; reflexivity. Qed.

Section tool_loop_claims.
Context {W : Type}.
Variable buildMessages :
  string -> option interfaces.Memory -> list openaigo.ChatCompletionMessageParamUnion.
Implicit Types (c : openai.OpenAIClient W) (st : openai.State W).
Implicit Types (tools : list (interfaces.Tool W)).

(** C5: when the reply to the first request has no tool calls,
    [GenerateWithTools] returns that reply's text with the surrounding
    white space trimmed and no error, having sent exactly that one
    request. *)
Theorem GenerateWithTools_first_reply_final c ctx prompt tools options st
    params resp w' responseMessage rest :
  openai.applyNonNilOptions options interfaces.zeroGenerateOptions = Some params ->
  (0 <= interfaces.MaxIterations params)%Z ->
  let req :=
    openai.loopRequest c (openai.llmConfigOf params) (openai.toolDefinition <$> tools)
      (openai.initialMessages buildMessages prompt params) in
  openai.Completions_New c req (openai.world st) = (inl resp, w') ->
  openaigo.Choices resp = responseMessage :: rest ->
  openaigo.ToolCalls responseMessage = [] ->
  openai.GenerateWithTools buildMessages c ctx prompt tools options st
  = (Returns (gostrings.TrimSpace (openaigo.Content responseMessage)) None,
     openai.mkState w' (openai.sent st ++ [req])).
Proof.
  intros Hopts Hmax req Hnew Hchoices Hcalls.
  unfold openai.GenerateWithTools, openai.GenerateWithTools_run. rewrite Hopts.
  assert (Hpos : exists n, Z.to_nat (openai.maxIterationsOf params) = S n).
  { unfold openai.maxIterationsOf. case_decide.
    - by exists 9%nat.
    - exists (Z.to_nat (interfaces.MaxIterations params - 1)). lia. }
  destruct Hpos as [n ->]. simpl.
  fold req. rewrite (send_unfold _ _ _ _ _ Hnew), Hchoices, Hcalls. reflexivity.
Qed.

(** C1: when every vendor reply carries at least one tool call, and the
    configured budget is positive or left at zero (which means 10),
    [GenerateWithTools] sends exactly that many requests and then returns
    the iteration-budget error. *)
Theorem GenerateWithTools_budget_exceeded c ctx prompt tools options st params :
  openai.applyNonNilOptions options interfaces.zeroGenerateOptions = Some params ->
  (0 <= interfaces.MaxIterations params)%Z ->
  (forall req w, exists resp w' responseMessage rest,
      openai.Completions_New c req w = (inl resp, w')
      /\ openaigo.Choices resp = responseMessage :: rest
      /\ openaigo.ToolCalls responseMessage ≠ []) ->
  exists reqs st',
    openai.GenerateWithTools buildMessages c ctx prompt tools options st
    = (Returns "" (Some "max iterations reached without a final answer"), st')
    /\ openai.sent st' = openai.sent st ++ reqs
    /\ Z.of_nat (length reqs)
       = if decide (interfaces.MaxIterations params = 0%Z) then 10%Z
         else interfaces.MaxIterations params.
Proof.
  intros Hopts Hmax Halways.
  unfold openai.GenerateWithTools, openai.GenerateWithTools_run. rewrite Hopts.
  destruct (toolLoop_exhausts c (openai.llmConfigOf params) tools
              (openai.toolDefinition <$> tools)
              (Z.to_nat (openai.maxIterationsOf params))
              (openai.initialMessages buildMessages prompt params) st Halways)
    as (reqs & messages' & st' & Hloop & Hlog & Hlen).
  exists reqs, st'. rewrite Hloop. split_and!; [done | done |].
  rewrite Hlen. unfold openai.maxIterationsOf. case_decide; lia.
Qed.

(** X24: with a negative budget the loop body never runs, nothing is sent,
    and the budget error is returned at once. *)
Lemma GenerateWithTools_negative_budget c ctx prompt tools options st params :
  openai.applyNonNilOptions options interfaces.zeroGenerateOptions = Some params ->
  (interfaces.MaxIterations params < 0)%Z ->
  openai.GenerateWithTools buildMessages c ctx prompt tools options st
  = (Returns "" (Some "max iterations reached without a final answer"), st).
Proof.
  intros Hopts Hneg.
  unfold openai.GenerateWithTools, openai.GenerateWithTools_run. rewrite Hopts.
  replace (Z.to_nat (openai.maxIterationsOf params)) with 0%nat; [done|].
  unfold openai.maxIterationsOf. case_decide; lia.
Qed.


End tool_loop_claims.

Lemma GenerateWithTools_first_reply_final_witness :
  openai.GenerateWithTools azureopenai.buildMessages directClient noContext
    "Capital of France?" [brokenWeather] [] start
  = (Returns "Paris." None,
     openai.mkState 1
       [openai.loopRequest directClient
          (openai.llmConfigOf interfaces.zeroGenerateOptions)
          (openai.toolDefinition <$> [brokenWeather])
          [openaigo.UserMessage "Capital of France?"]]).
Proof.
  assert (Hmax : (0 <= interfaces.MaxIterations interfaces.zeroGenerateOptions)%Z)
    by (simpl; lia).
  exact (GenerateWithTools_first_reply_final azureopenai.buildMessages directClient
           noContext "Capital of France?" [brokenWeather] [] start
           interfaces.zeroGenerateOptions
           (openaigo.mkChatCompletion [openaigo.mkChatCompletionMessage "  Paris. " []])
           1%nat (openaigo.mkChatCompletionMessage "  Paris. " []) []
           eq_refl Hmax eq_refl eq_refl eq_refl).
Defined.

Lemma GenerateWithTools_budget_exceeded_witness :
  (exists reqs st',
     openai.GenerateWithTools azureopenai.buildMessages insistentClient noContext
       "Weather?" [brokenWeather] [] start
     = (Returns "" (Some "max iterations reached without a final answer"), st')
     /\ openai.sent st' = reqs /\ Z.of_nat (length reqs) = 10%Z)
  /\ (exists reqs st',
     openai.GenerateWithTools azureopenai.buildMessages insistentClient noContext
       "Weather?" [brokenWeather] [withMaxIterations 3] start
     = (Returns "" (Some "max iterations reached without a final answer"), st')
     /\ openai.sent st' = reqs /\ Z.of_nat (length reqs) = 3%Z).
Proof.
  assert (Halways : forall (req : openaigo.ChatCompletionNewParams) (w : nat),
    exists resp w' responseMessage rest,
      openai.Completions_New insistentClient req w = (inl resp, w')
      /\ openaigo.Choices resp = responseMessage :: rest
      /\ openaigo.ToolCalls responseMessage ≠ []).
  { intros req w. exists (openaigo.mkChatCompletion [askWeather]), (S w), askWeather, [].
    split_and!; [reflexivity | reflexivity | discriminate]. }
  split.
  - apply (GenerateWithTools_budget_exceeded azureopenai.buildMessages insistentClient
             noContext "Weather?" [brokenWeather] [] start
             interfaces.zeroGenerateOptions eq_refl);
      [ simpl; lia | exact Halways ].
  - apply (GenerateWithTools_budget_exceeded azureopenai.buildMessages insistentClient
             noContext "Weather?" [brokenWeather] [withMaxIterations 3] start
             _ eq_refl);
      [ simpl; lia | exact Halways ].
Defined.

(** A reply with two calls: one for a tool nobody offered, one for the
    failing weather tool.  Both become tool messages, in call order. *)
Example tool_failures_round :
  (openai.processToolCalls [brokenWeather]
     [ openaigo.mkToolCall "call_7" "get_stock" "{}";
       openaigo.mkToolCall "call_8" "get_weather" "{}" ] [] start).1
  = [ openaigo.OfTool "Error: tool not found: get_stock" "call_7";
      openaigo.OfTool "Error: upstream timeout" "call_8" ].
Proof. reflexivity. Qed.


(** ** Retries and sampling parameters in [Generate] *)

Section retry_and_sampling.
Context {W : Type}.
Variable buildMessages :
  string -> option interfaces.Memory -> list openaigo.ChatCompletionMessageParamUnion.
Implicit Types (c : openai.OpenAIClient W) (st : openai.State W).

(** The tool loop reads the model name and the vendor endpoint of the
    client, and nothing else. *)
Lemma toolLoop_ignores_retryExecutor model executor1 executor2 vendor cfg
    (tools : list (interfaces.Tool W)) openaiTools n messages st :
  openai.toolLoop (openai.mkOpenAIClient model executor1 vendor) cfg tools openaiTools
    n messages st
  = openai.toolLoop (openai.mkOpenAIClient model executor2 vendor) cfg tools openaiTools
      n messages st.
Proof.
  revert messages st. induction n as [|n IH]; intros messages st; [done|].
  simpl. unfold openai.send, openai.loopRequest, openai.getTemperatureForModel. simpl.
  destruct (vendor _ _) as [[resp|err] w']; [|done].
  destruct (openaigo.Choices resp) as [|responseMessage rest]; [done|].
  case_decide; [done|].
  destruct (openai.processToolCalls _ _ _ _) as [messages' st']. apply IH.
Qed.

(** Retrying [Generate]'s operation sends the same request once per
    attempt, at least once and at most once more than the retry count. *)
Lemma attempts_generateOperation c req retries st resp :
  exists k,
    0 < k <= S retries
    /\ openai.sent (retry.attempts retries (openai.generateOperation c req) (st, resp)).2.1
       = openai.sent st ++ replicate k req.
Proof.
  revert st resp. induction retries as [|retries IH]; intros st resp; simpl;
    unfold openai.send;
    destruct (openai.Completions_New c req (openai.world st)) as [[r|err] w'] eqn:Hnew;
    simpl; try (exists 1; split; [lia | done]).
  destruct (IH (openai.mkState w' (openai.sent st ++ [req])) None) as (k & Hk & Hsent).
  exists (S k). split; [lia|]. rewrite Hsent. simpl. by rewrite <- app_assoc.
Qed.

Lemma isReasoningModel_prefix (model : string) :
  openai.isReasoningModel model = true
  <-> exists prefix, prefix ∈ openai.reasoningModels
                     /\ gostrings.HasPrefix model prefix = true.
Proof.
  unfold openai.isReasoningModel. rewrite existsb_exists.
  split; intros (prefix & Hin & Hp); exists prefix; split; try done;
    by apply list_elem_of_In.
Qed.

End retry_and_sampling.

(** C2: with a retry executor configured, every round's network call of
    [GenerateWithTools] is meant to run through it, as the calls of
    [Generate] do.  The code calls the vendor directly: replacing or removing
    the executor never changes what [GenerateWithTools] does.  On a vendor
    whose first call fails, [Generate] with two retries sends the request
    twice and succeeds, while [GenerateWithTools] on the same client gives up
    after one request. *)
Theorem GenerateWithTools_bypasses_retry :
  (forall (W : Type) buildMessages model executor vendor ctx prompt
          (tools : list (interfaces.Tool W)) options (st : openai.State W),
      openai.GenerateWithTools buildMessages
        (openai.mkOpenAIClient model (Some executor) vendor) ctx prompt tools options st
      = openai.GenerateWithTools buildMessages
          (openai.mkOpenAIClient model None vendor) ctx prompt tools options st)
  /\ (let run :=
        openai.Generate azureopenai.buildMessages
          (flakyClient (Some (retry.NewExecutor 2))) noContext "Capital of France?" [] start in
      run.1 = Returns "Paris." None
      /\ openai.world run.2 = 2%nat /\ length (openai.sent run.2) = 2%nat)
  /\ (let run :=
        openai.GenerateWithTools azureopenai.buildMessages
          (flakyClient (Some (retry.NewExecutor 2))) noContext "Capital of France?" [] [] start in
      run.1 = Returns "" (Some "failed to create chat completion: connection reset")
      /\ openai.world run.2 = 1%nat /\ length (openai.sent run.2) = 1%nat).
Proof.
  split_and!.
  - intros W buildMessages model executor vendor ctx prompt tools options st.
    unfold openai.GenerateWithTools, openai.GenerateWithTools_run.
    destruct (openai.applyNonNilOptions options interfaces.zeroGenerateOptions); [|done].
    by rewrite (toolLoop_ignores_retryExecutor model (Some executor) None).
  - vm_compute. done.
  - vm_compute. done.
Qed.

(** C9: let [params] be the options [Generate] ends up with, carrying an
    [LLMConfig], and let the client have no retry executor or one that
    retries a fixed number of times.  Then every request [Generate] sends is
    the one request it assembled, it sends at least one, and in that request:
    when the model name starts with a reasoning-model prefix, the
    temperature is 1.0 and top-p is absent; when it starts with none, the
    temperature and top-p are the requested ones. *)
Theorem Generate_sampling_parameters (W : Type) buildMessages (c : openai.OpenAIClient W)
    ctx prompt options (st : openai.State W) params cfg :
  openai.applyOptions options openai.generateDefaults = Some params ->
  interfaces.LLMConfig_ params = Some cfg ->
  (openai.retryExecutor c = None
   \/ exists retries, openai.retryExecutor c = Some (retry.NewExecutor retries)) ->
  let req := openai.generateRequest buildMessages c ctx prompt params in
  (exists k, 0 < k
     /\ openai.sent (openai.Generate buildMessages c ctx prompt options st).2
        = openai.sent st ++ replicate k req)
  /\ ((exists prefix, prefix ∈ openai.reasoningModels
                      /\ gostrings.HasPrefix (openai.Model c) prefix = true) ->
      openaigo.Temperature req = Some 1%float /\ openaigo.TopP req = None)
  /\ ((forall prefix, prefix ∈ openai.reasoningModels ->
                      gostrings.HasPrefix (openai.Model c) prefix = false) ->
      openaigo.Temperature req = Some (interfaces.Temperature cfg)
      /\ openaigo.TopP req = Some (interfaces.TopP cfg)).
Proof.
  intros Hopts Hcfg Hexec req. split_and!.
  - unfold openai.Generate. rewrite Hopts. fold req.
    destruct Hexec as [Hnone | [retries Hsome]].
    + rewrite Hnone. exists 1. split; [lia|].
      unfold openai.generateOperation, openai.send.
      destruct (openai.Completions_New c req (openai.world st)) as [[resp|err] w']; simpl.
      * by destruct (openaigo.Choices resp).
      * done.
    + rewrite Hsome. simpl.
      destruct (attempts_generateOperation c req retries st None) as (k & Hk & Hsent).
      exists k. split; [lia|].
      destruct (retry.attempts retries (openai.generateOperation c req) (st, None))
        as [err [st' resp]].
      simpl in Hsent. destruct err as [err|]; [done|].
      destruct resp as [resp|]; [|done]. by destruct (openaigo.Choices resp).
  - intros Hprefix. apply isReasoningModel_prefix in Hprefix.
    subst req. unfold openai.generateRequest, openai.getTemperatureForModel.
    simpl. by rewrite Hcfg, Hprefix.
  - intros Hnone.
    assert (Hfalse : openai.isReasoningModel (openai.Model c) = false).
    { apply not_true_is_false. intros Htrue. apply isReasoningModel_prefix in Htrue.
      destruct Htrue as (prefix & Hin & Hp). rewrite (Hnone prefix Hin) in Hp. done. }
    subst req. unfold openai.generateRequest, openai.getTemperatureForModel.
    simpl. by rewrite Hcfg, Hfalse.
Qed.

Lemma Generate_sampling_parameters_witness :
  (let req :=
     openai.generateRequest azureopenai.buildMessages (reasoningClient "o3-mini") noContext "Hi"
       (interfaces.mkGenerateOptions
          (Some (interfaces.mkLLMConfig 0.2%float 0.9%float 0%float 0%float [] ""))
          None "" None 0) in
   openaigo.Temperature req = Some 1%float /\ openaigo.TopP req = None)
  /\ (let req :=
     openai.generateRequest azureopenai.buildMessages (reasoningClient "gpt-4o-mini") noContext "Hi"
       (interfaces.mkGenerateOptions
          (Some (interfaces.mkLLMConfig 0.2%float 0.9%float 0%float 0%float [] ""))
          None "" None 0) in
   openaigo.Temperature req = Some 0.2%float /\ openaigo.TopP req = Some 0.9%float).
Proof.
  split.
  - destruct (Generate_sampling_parameters nat azureopenai.buildMessages
                (reasoningClient "o3-mini") noContext "Hi"
                [openai.WithTemperature 0.2%float; openai.WithTopP 0.9%float] start
                _ _ eq_refl eq_refl (or_introl eq_refl)) as (_ & Hreasoning & _).
    apply Hreasoning. exists "o3-". split; [|reflexivity].
    unfold openai.reasoningModels.
    do 3 apply list_elem_of_further. apply list_elem_of_here.
  - destruct (Generate_sampling_parameters nat azureopenai.buildMessages
                (reasoningClient "gpt-4o-mini") noContext "Hi"
                [openai.WithTemperature 0.2%float; openai.WithTopP 0.9%float] start
                _ _ eq_refl eq_refl (or_introl eq_refl)) as (_ & _ & Hplain).
    apply Hplain. intros prefix Hin. unfold openai.reasoningModels in Hin.
    repeat (apply elem_of_cons in Hin as [-> | Hin]; [reflexivity|]).
    by apply elem_of_nil in Hin.
Defined.

(** The scenario of the spec: model [o3-mini], requested temperature 0.2. *)
Example o3_mini_request :
  let run :=
    openai.Generate azureopenai.buildMessages (reasoningClient "o3-mini") noContext "Hi"
      [openai.WithTemperature 0.2%float] start in
  run.1 = Returns "ok" None
  /\ (openaigo.Temperature <$> openai.sent run.2) = [Some 1%float]
  /\ (openaigo.TopP <$> openai.sent run.2) = [None].
Proof. vm_compute. done. Qed.

(** ** The tracing middleware *)

(** C10: when the wrapped client has no [GenerateWithTools], the
    middleware's [GenerateWithTools] is its [Generate] on the same prompt and
    options: the tools play no part, and the outcome and the world it leaves
    are those of the wrapped client's [Generate], called with the context of
    the [llm.generate] span. *)
Theorem TracedLLM_GenerateWithTools_fallback {W Ctx Opt : Type}
    (Now : W -> Z) (sha256hex : string -> string)
    (m : tracing.TracedLLM W Ctx Opt)
    (ctx : Ctx) (prompt : string) (tools : list (interfaces.Tool W))
    (options : list Opt) (st : tracing.State W) :
  tracing.GenerateWithTools (tracing.llm m) = None ->
  let wrapped :=
    tracing.Generate (tracing.llm m)
      (tracing.spanContext (tracing.tracer m) ctx "llm.generate")
      prompt options (tracing.world st) in
  tracing.TracedLLM_GenerateWithTools Now sha256hex m ctx prompt tools options st
    = tracing.TracedLLM_Generate Now sha256hex m ctx prompt options st
  /\ (forall tools',
        tracing.TracedLLM_GenerateWithTools Now sha256hex m ctx prompt tools' options st
        = tracing.TracedLLM_GenerateWithTools Now sha256hex m ctx prompt tools options st)
  /\ (tracing.TracedLLM_GenerateWithTools Now sha256hex m ctx prompt tools options st).1
     = wrapped.1
  /\ tracing.world
       (tracing.TracedLLM_GenerateWithTools Now sha256hex m ctx prompt tools options st).2
     = wrapped.2.
Proof.
  intros Hnone wrapped. unfold tracing.TracedLLM_GenerateWithTools. rewrite Hnone.
  split_and!; [done | done | |];
    unfold tracing.TracedLLM_Generate; subst wrapped;
    by destruct (tracing.Generate _ _ _ _ _).
Qed.

Lemma TracedLLM_GenerateWithTools_fallback_witness :
  (tracing.TracedLLM_GenerateWithTools Z.of_nat (fun s => s)
     (tracing.NewTracedLLM echoLLM listTracer) [] "Hi" [brokenWeather] [] (tracing.mkState 0%nat [])).1
  = Returns "echo: Hi" None.
Proof.
  destruct (TracedLLM_GenerateWithTools_fallback Z.of_nat (fun s => s)
              (tracing.NewTracedLLM echoLLM listTracer) [] "Hi" [brokenWeather] []
              (tracing.mkState 0%nat []) eq_refl) as (_ & _ & Hout & _).
  exact Hout.
Defined.

(** * Further properties of the builders *)

Lemma gemini_buildContents_omap U prompt memory msgs :
  interfaces.GetMessages memory = inl msgs ->
  gemini.buildContents U prompt (Some memory) = omap (gemini.convertMemoryMessage U) msgs.
Proof.
  intros Hget. unfold gemini.buildContents. by rewrite Hget, gemini_appendConverted_omap.
Qed.

Lemma azure_buildMessages_omap prompt memory msgs :
  interfaces.GetMessages memory = inl msgs ->
  azureopenai.buildMessages prompt (Some memory) = omap azureopenai.convertMemoryMessage msgs.
Proof.
  intros Hget. unfold azureopenai.buildMessages. by rewrite Hget, azure_appendConverted_omap.
Qed.

Lemma length_omap_le {A B : Type} (f : A -> option B) (l : list A) :
  length (omap f l) <= length l.
Proof. induction l as [|x l IH]; csimpl; [lia|]. destruct (f x); csimpl; lia. Qed.

(** X1: once a Memory Store is supplied, neither builder looks at the prompt:
    the history is the same for every prompt, and when [GetMessages] fails
    it is empty, so the current prompt is not sent at all. *)
Theorem buildHistory_memory_ignores_prompt (U : json.Unmarshaler)
    (prompt prompt' : string) (memory : interfaces.Memory) :
  gemini.buildContents U prompt (Some memory) = gemini.buildContents U prompt' (Some memory)
  /\ azureopenai.buildMessages prompt (Some memory)
     = azureopenai.buildMessages prompt' (Some memory)
  /\ (forall err, interfaces.GetMessages memory = inr err ->
        gemini.buildContents U prompt (Some memory) = []
        /\ azureopenai.buildMessages prompt (Some memory) = []).
Proof.
  split_and!; [done | done |].
  intros err Herr. unfold gemini.buildContents, azureopenai.buildMessages.
  by rewrite Herr.
Qed.

Lemma buildHistory_memory_ignores_prompt_witness :
  gemini.buildContents json.flatUnmarshal "Hello" (Some failingMemory) = []
  /\ azureopenai.buildMessages "Hello" (Some failingMemory) = [].
Proof.
  destruct (buildHistory_memory_ignores_prompt json.flatUnmarshal "Hello" "Hello"
              failingMemory) as (_ & _ & Hfail).
  exact (Hfail "store offline" eq_refl).
Defined.

(** X2: for any retrieved messages, each builder's history is exactly the
    non-nil conversions of the messages in their original order, so it never
    has more entries than there are messages and every entry is the
    conversion of some message. *)
Theorem buildHistory_is_filtered_conversion (U : json.Unmarshaler) (prompt : string)
    (memory : interfaces.Memory) (msgs : list interfaces.Message) :
  interfaces.GetMessages memory = inl msgs ->
  (gemini.buildContents U prompt (Some memory) = omap (gemini.convertMemoryMessage U) msgs
   /\ length (gemini.buildContents U prompt (Some memory)) <= length msgs
   /\ forall entry, entry ∈ gemini.buildContents U prompt (Some memory) ->
        exists msg, msg ∈ msgs /\ gemini.convertMemoryMessage U msg = Some entry)
  /\ (azureopenai.buildMessages prompt (Some memory)
        = omap azureopenai.convertMemoryMessage msgs
      /\ length (azureopenai.buildMessages prompt (Some memory)) <= length msgs
      /\ forall entry, entry ∈ azureopenai.buildMessages prompt (Some memory) ->
           exists msg, msg ∈ msgs /\ azureopenai.convertMemoryMessage msg = Some entry).
Proof.
  intros Hget.
  rewrite (gemini_buildContents_omap U prompt memory msgs Hget).
  rewrite (azure_buildMessages_omap prompt memory msgs Hget).
  split; (split_and!; [done | apply length_omap_le |]);
    intros entry Hin; apply list_elem_of_omap in Hin; exact Hin.
Qed.

Lemma buildHistory_is_filtered_conversion_witness :
  length (gemini.buildContents json.flatUnmarshal "Continue" (Some scenarioMemory)) <= 3
  /\ length (azureopenai.buildMessages "Continue" (Some scenarioMemory)) <= 3.
Proof.
  destruct (buildHistory_is_filtered_conversion json.flatUnmarshal "Continue"
              scenarioMemory _ eq_refl) as [(_ & Hg & _) (_ & Ha & _)].
  split; [exact Hg | exact Ha].
Defined.

(** What a non-nil Gemini conversion looks like. *)
Lemma gemini_convert_shape U msg entry :
  gemini.convertMemoryMessage U msg = Some entry ->
  (genai.Role entry = "user" \/ genai.Role entry = "model") /\ genai.Parts entry ≠ [].
Proof.
  unfold gemini.convertMemoryMessage.
  destruct msg as [role content calls id meta]; simpl.
  destruct role; repeat case_decide; intros Heq; inversion Heq; subst; simpl;
    try (split; [by (left + right) | done]).
  all: split; [by right|].
  all: rewrite foldl_snoc_map; destruct calls as [|call calls]; [simpl in *; lia|].
  all: intros Hnil; apply (f_equal length) in Hnil.
  all: rewrite length_app, length_fmap in Hnil; simpl in Hnil; lia.
Qed.

(** What a non-nil Azure OpenAI conversion looks like. *)
Lemma azure_convert_shape msg entry :
  azureopenai.convertMemoryMessage msg = Some entry ->
  match entry with
  | openaigo.OfAssistant text calls => calls = [] /\ text ≠ ""
  | openaigo.OfTool _ id => id ≠ ""
  | _ => True
  end.
Proof.
  unfold azureopenai.convertMemoryMessage.
  destruct msg as [role content calls id meta]; simpl.
  destruct role; repeat case_decide; intros Heq; inversion Heq; subst; simpl; done.
Qed.

(** X3: every entry the Gemini builder emits, with or without a Memory
    Store, has role ["user"] or ["model"] (system and tool turns are sent
    under ["user"]) and at least one part. *)
Theorem gemini_history_roles_and_parts (U : json.Unmarshaler) (prompt : string)
    (memory : option interfaces.Memory) :
  Forall (fun entry =>
            (genai.Role entry = "user" \/ genai.Role entry = "model")
            /\ genai.Parts entry ≠ [])
         (gemini.buildContents U prompt memory).
Proof.
  destruct memory as [memory|].
  - destruct (interfaces.GetMessages memory) as [msgs|err] eqn:Hget.
    + rewrite (gemini_buildContents_omap U prompt memory msgs Hget).
      apply Forall_forall. intros entry Hin.
      apply list_elem_of_omap in Hin as (msg & _ & Hconv).
      by apply (gemini_convert_shape U msg).
    + unfold gemini.buildContents. rewrite Hget. constructor.
  - simpl. constructor; [split; [by left | done] | constructor].
Qed.

(** X4: in a history built by the Azure OpenAI builder from a Memory Store,
    no assistant turn carries tool calls or has empty text, and no tool turn
    has an empty tool-call id. *)
Theorem azure_history_entries (prompt : string) (memory : interfaces.Memory) :
  Forall (fun entry =>
            match entry with
            | openaigo.OfAssistant text calls => calls = [] /\ text ≠ ""
            | openaigo.OfTool _ id => id ≠ ""
            | _ => True
            end)
         (azureopenai.buildMessages prompt (Some memory)).
Proof.
  destruct (interfaces.GetMessages memory) as [msgs|err] eqn:Hget.
  - rewrite (azure_buildMessages_omap prompt memory msgs Hget).
    apply Forall_forall. intros entry Hin.
    apply list_elem_of_omap in Hin as (msg & _ & Hconv).
    by apply (azure_convert_shape msg).
  - unfold azureopenai.buildMessages. rewrite Hget. constructor.
Qed.

(** Whatever the Gemini builder drops, the Azure OpenAI builder drops too. *)
Lemma gemini_drop_azure_drop U msg :
  gemini.convertMemoryMessage U msg = None -> azureopenai.convertMemoryMessage msg = None.
Proof.
  rewrite gemini_convert_None, azure_convert_None.
  intros [(Hr & _ & Hc) | [H | H]]; [left | right; left | right; right]; done.
Qed.

Lemma omap_length_mono {A B C : Type} (f : A -> option B) (g : A -> option C) (l : list A) :
  (forall x, g x = None -> f x = None) ->
  length (omap f l) <= length (omap g l).
Proof.
  intros Hfg. induction l as [|x l IH]; csimpl; [lia|].
  destruct (g x) as [z|] eqn:Hg; csimpl.
  - destruct (f x); csimpl; lia.
  - rewrite (Hfg x Hg). lia.
Qed.

(** X5: on the same prompt and memory, the history of the Azure OpenAI
    builder is never longer than that of the Gemini builder: it drops every
    message Gemini drops, and also assistant turns that have tool calls but
    no text. *)
Theorem azure_history_not_longer (U : json.Unmarshaler) (prompt : string)
    (memory : option interfaces.Memory) :
  length (azureopenai.buildMessages prompt memory)
  <= length (gemini.buildContents U prompt memory).
Proof.
  destruct memory as [memory|]; [|simpl; lia].
  destruct (interfaces.GetMessages memory) as [msgs|err] eqn:Hget.
  - rewrite (gemini_buildContents_omap U prompt memory msgs Hget).
    rewrite (azure_buildMessages_omap prompt memory msgs Hget).
    apply omap_length_mono, gemini_drop_azure_drop.
  - unfold gemini.buildContents, azureopenai.buildMessages. rewrite Hget. simpl. lia.
Qed.

(** X6: the Gemini tool-result turn does not carry the tool-call id: two
    tool messages that differ only in their non-empty [toolCallID] convert
    to the same entry, whereas the Azure OpenAI entries differ with the id. *)
Theorem gemini_tool_result_ignores_id (U : json.Unmarshaler) (msg : interfaces.Message)
    (id : string) :
  interfaces.Role msg = interfaces.MessageRoleTool ->
  interfaces.ToolCallID msg ≠ "" ->
  id ≠ "" ->
  gemini.convertMemoryMessage U (withToolCallID id msg) = gemini.convertMemoryMessage U msg
  /\ azureopenai.convertMemoryMessage (withToolCallID id msg)
     = Some (openaigo.OfTool (interfaces.Content msg) id).
Proof.
  intros Hrole Hid Hid'.
  unfold gemini.convertMemoryMessage, azureopenai.convertMemoryMessage, withToolCallID.
  simpl. rewrite Hrole. by repeat case_decide.
Qed.

Lemma gemini_tool_result_ignores_id_witness :
  gemini.convertMemoryMessage json.flatUnmarshal (withToolCallID "call_999" weatherResult)
  = gemini.convertMemoryMessage json.flatUnmarshal weatherResult
  /\ azureopenai.convertMemoryMessage (withToolCallID "call_999" weatherResult)
     = Some (openaigo.OfTool "Sunny" "call_999").
Proof.
  apply (gemini_tool_result_ignores_id json.flatUnmarshal weatherResult "call_999" eq_refl);
    discriminate.
Defined.

(** * Further properties of the tool loop *)

Section tool_loop_trace.
Context {W : Type}.
Variable buildMessages :
  string -> option interfaces.Memory -> list openaigo.ChatCompletionMessageParamUnion.
Implicit Types (c : openai.OpenAIClient W) (st : openai.State W).
Implicit Types (tools : list (interfaces.Tool W)).
Implicit Types (messages : list openaigo.ChatCompletionMessageParamUnion).

Lemma processToolCalls_prefix tools toolCalls messages st :
  messages `prefix_of` (openai.processToolCalls tools toolCalls messages st).1.
Proof.
  destruct (processToolCalls_appends tools toolCalls messages st) as (results & -> & _).
  by apply prefix_app_r.
Qed.

(** Everything a run of the loop does to the request log, the message list
    and the outcome. *)
Lemma toolLoop_trace c cfg tools openaiTools n messages st :
  exists reqs,
    openai.sent (openai.toolLoop c cfg tools openaiTools n messages st).2
      = openai.sent st ++ reqs
    /\ length reqs <= n
    /\ Forall (fun req => exists sentMessages,
                 req = openai.loopRequest c cfg openaiTools sentMessages
                 /\ messages `prefix_of` sentMessages) reqs
    /\ messages `prefix_of` (openai.toolLoop c cfg tools openaiTools n messages st).1.2
    /\ match (openai.toolLoop c cfg tools openaiTools n messages st).1.1 with
       | Returns _ None => reqs ≠ []
       | Returns text (Some err) => text = "" /\ loopError err
       | Panics => False
       end.
Proof.
  revert messages st. induction n as [|n IH]; intros messages st.
  - exists []. simpl. rewrite app_nil_r. split_and!; try done. by left.
  - simpl. unfold openai.send.
    set (req := openai.loopRequest c cfg openaiTools messages).
    assert (Hreq : Forall (fun r => exists sentMessages,
                     r = openai.loopRequest c cfg openaiTools sentMessages
                     /\ messages `prefix_of` sentMessages) [req]).
    { constructor; [|constructor]. by exists messages. }
    destruct (openai.Completions_New c req (openai.world st)) as [[resp|err] w'].
    + destruct (openaigo.Choices resp) as [|responseMessage rest].
      * exists [req]. simpl. split_and!; try done; [lia | right; by left].
      * case_decide.
        -- exists [req]. simpl. split_and!; try done; [lia | by apply prefix_app_r].
        -- pose proof (processToolCalls_sent tools (openaigo.ToolCalls responseMessage)
                         (messages ++ [openaigo.ToParam responseMessage])
                         (openai.mkState w' (openai.sent st ++ [req]))) as Hsent.
           pose proof (processToolCalls_prefix tools (openaigo.ToolCalls responseMessage)
                         (messages ++ [openaigo.ToParam responseMessage])
                         (openai.mkState w' (openai.sent st ++ [req]))) as Hpre.
           destruct (openai.processToolCalls _ _ _ _) as [messages1 st1].
           simpl in Hsent, Hpre.
           assert (Hpre' : messages `prefix_of` messages1).
           { etrans; [|exact Hpre]. by apply prefix_app_r. }
           destruct (IH messages1 st1) as (reqs & Hlog & Hlen & Hall & Hfinal & Hout).
           exists (req :: reqs). split_and!.
           ++ rewrite Hlog, Hsent. simpl. by rewrite <- app_assoc.
           ++ simpl. lia.
           ++ constructor; [by exists messages|].
              eapply Forall_impl; [exact Hall|].
              intros r (sentMessages & -> & Hp). exists sentMessages. split; [done|].
              by etrans.
           ++ by etrans.
           ++ destruct (openai.toolLoop _ _ _ _ _ _ _) as [[[text [err|]|] ?] ?];
                simpl in *; done.
    + exists [req]. simpl. split_and!; try done; [lia |].
      right; right. by exists err.
Qed.

End tool_loop_trace.

Section tool_loop_extras.
Context {W : Type}.
Variable buildMessages :
  string -> option interfaces.Memory -> list openaigo.ChatCompletionMessageParamUnion.
Implicit Types (c : openai.OpenAIClient W) (st : openai.State W).
Implicit Types (tools : list (interfaces.Tool W)).

(** X7: whatever the vendor and the tools do, [GenerateWithTools] sends at
    most [maxIterations] requests (10 when the option is left at zero, none
    when it is negative). *)
Theorem GenerateWithTools_request_bound c ctx prompt tools options st params :
  openai.applyNonNilOptions options interfaces.zeroGenerateOptions = Some params ->
  exists reqs,
    openai.sent (openai.GenerateWithTools buildMessages c ctx prompt tools options st).2
      = openai.sent st ++ reqs
    /\ (Z.of_nat (length reqs)
        <= Z.max 0 (if decide (interfaces.MaxIterations params = 0%Z) then 10
                    else interfaces.MaxIterations params))%Z.
Proof.
  intros Hopts.
  unfold openai.GenerateWithTools, openai.GenerateWithTools_run. rewrite Hopts.
  destruct (toolLoop_trace c (openai.llmConfigOf params) tools
              (openai.toolDefinition <$> tools)
              (Z.to_nat (openai.maxIterationsOf params))
              (openai.initialMessages buildMessages prompt params) st)
    as (reqs & Hlog & Hlen & _).
  destruct (openai.toolLoop _ _ _ _ _ _ _) as [[out messages'] st'].
  exists reqs. split; [exact Hlog|].
  unfold openai.maxIterationsOf in Hlen. case_decide; lia.
Qed.

(** X8: every request [GenerateWithTools] sends names the client's model,
    carries the tool definitions built once from the offered tools, starts
    with the initial message list, and has no response format, no reasoning
    effort and no user id, whatever the options and the context say. *)
Theorem GenerateWithTools_requests_shape c ctx prompt tools options st params :
  openai.applyNonNilOptions options interfaces.zeroGenerateOptions = Some params ->
  exists reqs,
    openai.sent (openai.GenerateWithTools buildMessages c ctx prompt tools options st).2
      = openai.sent st ++ reqs
    /\ Forall (fun req =>
                 openaigo.Model req = openai.Model c
                 /\ openaigo.Tools req = openai.toolDefinition <$> tools
                 /\ openaigo.ResponseFormat req = None
                 /\ openaigo.ReasoningEffort req = ""
                 /\ openaigo.User req = None
                 /\ openai.initialMessages buildMessages prompt params
                      `prefix_of` openaigo.Messages req) reqs.
Proof.
  intros Hopts.
  unfold openai.GenerateWithTools, openai.GenerateWithTools_run. rewrite Hopts.
  destruct (toolLoop_trace c (openai.llmConfigOf params) tools
              (openai.toolDefinition <$> tools)
              (Z.to_nat (openai.maxIterationsOf params))
              (openai.initialMessages buildMessages prompt params) st)
    as (reqs & Hlog & _ & Hall & _).
  destruct (openai.toolLoop _ _ _ _ _ _ _) as [[out messages'] st'].
  exists reqs. split; [exact Hlog|].
  eapply Forall_impl; [exact Hall|].
  intros req (sentMessages & -> & Hpre). by split_and!.
Qed.

(** X9: [GenerateWithTools] panics exactly when applying the options
    panics, and then nothing has been sent; otherwise it returns either a
    text without error, or an empty text with one of three errors: the
    budget error, ["no completions returned"], or the vendor's error behind
    ["failed to create chat completion: "]. *)
Theorem GenerateWithTools_outcomes c ctx prompt tools options st :
  match openai.applyNonNilOptions options interfaces.zeroGenerateOptions with
  | None =>
      openai.GenerateWithTools buildMessages c ctx prompt tools options st = (Panics, st)
  | Some _ =>
      match (openai.GenerateWithTools buildMessages c ctx prompt tools options st).1 with
      | Returns _ None =>
          openai.sent (openai.GenerateWithTools buildMessages c ctx prompt tools options st).2
          ≠ openai.sent st
      | Returns text (Some err) => text = "" /\ loopError err
      | Panics => False
      end
  end.
Proof.
  unfold openai.GenerateWithTools, openai.GenerateWithTools_run.
  destruct (openai.applyNonNilOptions options interfaces.zeroGenerateOptions)
    as [params|]; [|done].
  destruct (toolLoop_trace c (openai.llmConfigOf params) tools
              (openai.toolDefinition <$> tools)
              (Z.to_nat (openai.maxIterationsOf params))
              (openai.initialMessages buildMessages prompt params) st)
    as (reqs & Hlog & _ & _ & _ & Hout).
  destruct (openai.toolLoop _ _ _ _ _ _ _) as [[out messages'] st'].
  simpl in *. destruct out as [text [err|]|]; try done.
  rewrite Hlog. intros Heq. apply Hout.
  apply (f_equal length) in Heq. rewrite length_app in Heq.
  destruct reqs; [done | simpl in Heq; lia].
Qed.

(** X10: when the first vendor call fails, [GenerateWithTools] returns the
    vendor's error behind ["failed to create chat completion: "]; when it
    succeeds with no choices, it returns ["no completions returned"].  In
    both cases that one request is all that was sent. *)
Theorem GenerateWithTools_first_round_failure c ctx prompt tools options st params r w' :
  openai.applyNonNilOptions options interfaces.zeroGenerateOptions = Some params ->
  (0 <= interfaces.MaxIterations params)%Z ->
  let req :=
    openai.loopRequest c (openai.llmConfigOf params) (openai.toolDefinition <$> tools)
      (openai.initialMessages buildMessages prompt params) in
  openai.Completions_New c req (openai.world st) = (r, w') ->
  match r with
  | inr err =>
      openai.GenerateWithTools buildMessages c ctx prompt tools options st
      = (Returns "" (Some ("failed to create chat completion: " +:+ err)),
         openai.mkState w' (openai.sent st ++ [req]))
  | inl resp =>
      openaigo.Choices resp = [] ->
      openai.GenerateWithTools buildMessages c ctx prompt tools options st
      = (Returns "" (Some "no completions returned"),
         openai.mkState w' (openai.sent st ++ [req]))
  end.
Proof.
  intros Hopts Hmax req Hnew.
  unfold openai.GenerateWithTools, openai.GenerateWithTools_run. rewrite Hopts.
  assert (Hpos : exists n, Z.to_nat (openai.maxIterationsOf params) = S n).
  { unfold openai.maxIterationsOf. case_decide.
    - by exists 9%nat.
    - exists (Z.to_nat (interfaces.MaxIterations params - 1)). lia. }
  destruct Hpos as [n ->]. simpl. fold req.
  rewrite (send_unfold _ _ _ _ _ Hnew).
  destruct r as [resp|err]; [|done]. by intros ->.
Qed.

End tool_loop_extras.

Lemma GenerateWithTools_request_bound_witness :
  exists reqs,
    openai.sent (openai.GenerateWithTools azureopenai.buildMessages directClient noContext
                   "Capital of France?" [brokenWeather] [withMaxIterations 3] start).2
      = reqs
    /\ (Z.of_nat (length reqs) <= 3)%Z.
Proof.
  exact (GenerateWithTools_request_bound azureopenai.buildMessages directClient noContext
           "Capital of France?" [brokenWeather] [withMaxIterations 3] start _ eq_refl).
Defined.

Lemma GenerateWithTools_requests_shape_witness :
  exists reqs,
    openai.sent (openai.GenerateWithTools azureopenai.buildMessages insistentClient
                   (openai.mkContext "acme" None) "Weather?" [brokenWeather]
                   [openai.WithReasoning "high"; withMaxIterations 2] start).2
      = reqs
    /\ Forall (fun req =>
                 openaigo.ReasoningEffort req = "" /\ openaigo.User req = None) reqs.
Proof.
  destruct (GenerateWithTools_requests_shape azureopenai.buildMessages insistentClient
              (openai.mkContext "acme" None) "Weather?" [brokenWeather]
              [openai.WithReasoning "high"; withMaxIterations 2] start _ eq_refl)
    as (reqs & Hlog & Hall).
  exists reqs. split; [exact Hlog|].
  eapply Forall_impl; [exact Hall|]. intros req (_ & _ & _ & He & Hu & _). by split.
Defined.

Lemma GenerateWithTools_first_round_failure_witness :
  openai.GenerateWithTools azureopenai.buildMessages (flakyClient None) noContext
    "Capital of France?" [] [] start
  = (Returns "" (Some "failed to create chat completion: connection reset"),
     openai.mkState 1
       [openai.loopRequest (flakyClient None)
          (openai.llmConfigOf interfaces.zeroGenerateOptions) []
          [openaigo.UserMessage "Capital of France?"]]).
Proof.
  assert (Hmax : (0 <= interfaces.MaxIterations interfaces.zeroGenerateOptions)%Z)
    by (simpl; lia).
  exact (GenerateWithTools_first_round_failure azureopenai.buildMessages (flakyClient None)
           noContext "Capital of France?" [] [] start interfaces.zeroGenerateOptions
           (inr "connection reset") 1%nat eq_refl Hmax eq_refl).
Defined.

Lemma GenerateWithTools_negative_budget_witness :
  openai.GenerateWithTools azureopenai.buildMessages directClient noContext
    "Capital of France?" [] [withMaxIterations (-1)] start
  = (Returns "" (Some "max iterations reached without a final answer"), start).
Proof.
  apply (GenerateWithTools_negative_budget azureopenai.buildMessages directClient noContext
           "Capital of France?" [] [withMaxIterations (-1)] start _ eq_refl).
  simpl. lia.
Defined.

(** * Tools, options and defaults *)

Section tools_and_options.
Context {W : Type}.
Variable buildMessages :
  string -> option interfaces.Memory -> list openaigo.ChatCompletionMessageParamUnion.
Implicit Types (c : openai.OpenAIClient W) (st : openai.State W).
Implicit Types (tools : list (interfaces.Tool W)).


(** X12: when the tool picked for a call succeeds, its result becomes the
    text of the call's tool message unchanged, and the following call runs
    in the world this one left behind. *)
Theorem tool_success_result_turn tools pre toolCall post
    (messages : list openaigo.ChatCompletionMessageParamUnion) st selectedTool result w' :
  let before := openai.processToolCalls tools pre messages st in
  openai.selectTool tools (openaigo.Function_Name toolCall) = Some selectedTool ->
  interfaces.Execute selectedTool (openaigo.Function_Arguments toolCall)
    (openai.world before.2) = (inl result, w') ->
  (openai.processToolCalls tools (pre ++ toolCall :: post) messages st).1
     !! (length messages + length pre)
    = Some (openaigo.ToolMessage result (openaigo.ID toolCall))
  /\ openai.processToolCalls tools (pre ++ toolCall :: post) messages st
     = openai.processToolCalls tools post
         (before.1 ++ [openaigo.ToolMessage result (openaigo.ID toolCall)])
         (openai.mkState w' (openai.sent before.2)).
Proof.
  intros before Hsel Hexec. subst before.
  rewrite processToolCalls_app.
  destruct (processToolCalls_appends tools pre messages st) as (r1 & Hr1 & Hl1).
  destruct (openai.processToolCalls tools pre messages st) as [m1 st1].
  simpl in *. subst m1.
  unfold openai.toolResult. rewrite Hsel, Hexec. split; [|done].
  match goal with |- context [openai.processToolCalls tools post ?m ?s] =>
    destruct (processToolCalls_appends tools post m s) as (r2 & -> & _)
  end.
  rewrite <- !app_assoc. rewrite lookup_app_r by lia. rewrite lookup_app_r by lia.
  replace (length messages + length pre - length messages - length r1) with 0 by lia.
  done.
Qed.

(** X13: [GenerateWithTools] starts from options without an [LLMConfig], so
    an option that writes a sampling parameter through it
    ([WithTemperature], [WithTopP], [WithFrequencyPenalty],
    [WithPresencePenalty], [WithStopSequences]) panics when it comes first,
    before anything is sent; the same option is safe after [WithReasoning],
    which installs an [LLMConfig], and in [Generate], which starts with
    one. *)
Theorem GenerateWithTools_sampling_options_panic c ctx prompt tools rest st
    (x : float) (stops : list string) (reasoning : string) :
  openai.GenerateWithTools buildMessages c ctx prompt tools
    (openai.WithTemperature x :: rest) st = (Panics, st)
  /\ openai.GenerateWithTools buildMessages c ctx prompt tools
       (openai.WithTopP x :: rest) st = (Panics, st)
  /\ openai.GenerateWithTools buildMessages c ctx prompt tools
       (openai.WithFrequencyPenalty x :: rest) st = (Panics, st)
  /\ openai.GenerateWithTools buildMessages c ctx prompt tools
       (openai.WithPresencePenalty x :: rest) st = (Panics, st)
  /\ openai.GenerateWithTools buildMessages c ctx prompt tools
       (openai.WithStopSequences stops :: rest) st = (Panics, st)
  /\ openai.applyNonNilOptions [openai.WithReasoning reasoning; openai.WithTemperature x]
       interfaces.zeroGenerateOptions
     = Some (interfaces.mkGenerateOptions
               (Some (interfaces.mkLLMConfig x 0%float 0%float 0%float [] reasoning))
               None "" None 0)
  /\ openai.applyOptions [openai.WithTemperature x] openai.generateDefaults
     = Some (interfaces.mkGenerateOptions
               (Some (interfaces.mkLLMConfig x 0%float 0%float 0%float [] ""))
               None "" None 0).
Proof. split_and!; reflexivity. Qed.

(** X14: the two option loops differ only on nil options:
    [GenerateWithTools] applies the non-nil options in order and skips the
    nil ones, where [Generate] panics on the first nil option it reaches. *)
Theorem applyNonNilOptions_skips_nil (options : list interfaces.GenerateOption)
    (params : interfaces.GenerateOptions) :
  openai.applyNonNilOptions options params
    = openai.applyOptions (filter (fun opt => is_Some opt) options) params
  /\ forall before after,
       options = before ++ None :: after ->
       Forall (fun opt => is_Some opt) before ->
       is_Some (openai.applyOptions before params) ->
       openai.applyOptions options params = None.
Proof.
  split.
  - revert params. induction options as [|[opt|] options IH]; intros params; [done| |].
    + rewrite filter_cons_True by (by eexists). simpl.
      destruct (opt params); [apply IH | done].
    + rewrite filter_cons_False by (intros [? ?]; done). apply IH.
  - intros before after -> Hall. revert params.
    induction before as [|[opt|] before IH]; intros params Hsome; simpl.
    + done.
    + simpl in Hsome. inversion Hall; subst.
      destruct (opt params) as [params'|]; [by apply IH | by destruct Hsome].
    + by destruct Hsome.
Qed.

End tools_and_options.

Lemma tool_success_result_turn_witness :
  (openai.processToolCalls
     [interfaces.mkTool "get_time" "Clock" ∅ (fun _ calls => (inl " 12:00 ", S calls))]
     [openaigo.mkToolCall "call_1" "get_time" "{}"] [] start).1 !! 0%nat
  = Some (openaigo.ToolMessage " 12:00 " "call_1").
Proof.
  apply (tool_success_result_turn
           [interfaces.mkTool "get_time" "Clock" ∅ (fun _ calls => (inl " 12:00 ", S calls))]
           [] (openaigo.mkToolCall "call_1" "get_time" "{}") [] [] start
           (interfaces.mkTool "get_time" "Clock" ∅ (fun _ calls => (inl " 12:00 ", S calls)))
           " 12:00 " 1%nat eq_refl eq_refl).
Defined.

Lemma applyNonNilOptions_skips_nil_witness :
  openai.applyOptions [openai.WithSystemMessage "Be brief"; None; openai.WithTopP 1%float]
    openai.generateDefaults = None
  /\ is_Some (openai.applyNonNilOptions
                [openai.WithSystemMessage "Be brief"; None; openai.WithTopP 1%float]
                openai.generateDefaults).
Proof.
  destruct (applyNonNilOptions_skips_nil
              [openai.WithSystemMessage "Be brief"; None; openai.WithTopP 1%float]
              openai.generateDefaults) as [Heq Hnil].
  split.
  - apply (Hnil [openai.WithSystemMessage "Be brief"] [openai.WithTopP 1%float] eq_refl).
    + repeat constructor. by eexists.
    + by eexists.
  - rewrite Heq. by eexists.
Defined.

(** * [Generate], defaults and the reasoning-model table *)

Lemma string_prefix_trans (a b s : string) :
  String.prefix a b = true -> String.prefix b s = true -> String.prefix a s = true.
Proof.
  revert b s. induction a as [|x a IH]; intros b s Hab Hbs; [by destruct s|].
  destruct b as [|y b]; [discriminate Hab|].
  destruct s as [|z s]; [discriminate Hbs|].
  simpl in *. destruct (ascii_dec x y) as [->|]; [|discriminate Hab].
  destruct (ascii_dec y z) as [->|]; [|discriminate Hbs]. by apply (IH b s).
Qed.

Lemma string_prefix_length (a s : string) :
  String.prefix a s = true -> String.length a <= String.length s.
Proof.
  revert s. induction a as [|x a IH]; intros s H; simpl; [lia|].
  destruct s as [|y s]; [discriminate H|]. simpl in *.
  destruct (ascii_dec x y); [|discriminate H]. specialize (IH s H). lia.
Qed.

(** X15: the ten-entry table of [isReasoningModel] amounts to four prefixes:
    a model is a reasoning model exactly when its name starts with [o1-],
    [o3-], [o4-] or [gpt-5]; in particular no name shorter than three bytes
    (such as a bare [o1] or [o3]) is one. *)
Theorem isReasoningModel_four_prefixes (model : string) :
  openai.isReasoningModel model
    = gostrings.HasPrefix model "o1-" || gostrings.HasPrefix model "o3-"
      || gostrings.HasPrefix model "o4-" || gostrings.HasPrefix model "gpt-5"
  /\ (String.length model < 3 -> openai.isReasoningModel model = false).
Proof.
  assert (Heq : openai.isReasoningModel model
    = gostrings.HasPrefix model "o1-" || gostrings.HasPrefix model "o3-"
      || gostrings.HasPrefix model "o4-" || gostrings.HasPrefix model "gpt-5").
  { unfold openai.isReasoningModel, openai.reasoningModels, gostrings.HasPrefix.
    cbn [existsb].
    pose proof (string_prefix_trans "o1-" "o1-mini" model eq_refl) as H1.
    pose proof (string_prefix_trans "o1-" "o1-preview" model eq_refl) as H2.
    pose proof (string_prefix_trans "o3-" "o3-mini" model eq_refl) as H3.
    pose proof (string_prefix_trans "o4-" "o4-mini" model eq_refl) as H4.
    pose proof (string_prefix_trans "gpt-5" "gpt-5-mini" model eq_refl) as H5.
    pose proof (string_prefix_trans "gpt-5" "gpt-5-nano" model eq_refl) as H6.
    destruct (String.prefix "o1-" model);
      destruct (String.prefix "o3-" model);
      destruct (String.prefix "o4-" model);
      destruct (String.prefix "gpt-5" model);
      destruct (String.prefix "o1-mini" model);
      destruct (String.prefix "o1-preview" model);
      destruct (String.prefix "o3-mini" model);
      destruct (String.prefix "o4-mini" model);
      destruct (String.prefix "gpt-5-mini" model);
      destruct (String.prefix "gpt-5-nano" model);
      simpl; try reflexivity;
      first [ discriminate (H1 eq_refl) | discriminate (H2 eq_refl)
            | discriminate (H3 eq_refl) | discriminate (H4 eq_refl)
            | discriminate (H5 eq_refl) | discriminate (H6 eq_refl) ]. }
  split; [exact Heq|].
  intros Hlen. rewrite Heq. unfold gostrings.HasPrefix.
  pose proof (string_prefix_length "o1-" model) as L1.
  pose proof (string_prefix_length "o3-" model) as L2.
  pose proof (string_prefix_length "o4-" model) as L3.
  pose proof (string_prefix_length "gpt-5" model) as L4.
  destruct (String.prefix "o1-" model); [specialize (L1 eq_refl); simpl in L1; lia|].
  destruct (String.prefix "o3-" model); [specialize (L2 eq_refl); simpl in L2; lia|].
  destruct (String.prefix "o4-" model); [specialize (L3 eq_refl); simpl in L3; lia|].
  destruct (String.prefix "gpt-5" model); [specialize (L4 eq_refl); simpl in L4; lia|].
  done.
Qed.

Lemma isReasoningModel_four_prefixes_witness : openai.isReasoningModel "o1" = false.
Proof.
  destruct (isReasoningModel_four_prefixes "o1") as [_ Hshort].
  apply Hshort. simpl. lia.
Defined.

Section generate_extras.
Context {W : Type}.
Variable buildMessages :
  string -> option interfaces.Memory -> list openaigo.ChatCompletionMessageParamUnion.
Implicit Types (c : openai.OpenAIClient W) (st : openai.State W).

(** X16: without a retry executor, [Generate] sends its request once and
    returns: the first choice's text exactly as received (not trimmed) when
    there is a choice, ["no response from OpenAI API"] when there is none,
    and the vendor's error behind ["failed to generate text: "] when the
    call fails. *)
Theorem Generate_outcomes c ctx prompt options st params r w' :
  openai.applyOptions options openai.generateDefaults = Some params ->
  openai.retryExecutor c = None ->
  let req := openai.generateRequest buildMessages c ctx prompt params in
  openai.Completions_New c req (openai.world st) = (r, w') ->
  openai.Generate buildMessages c ctx prompt options st
  = (match r with
     | inr err => Returns "" (Some ("failed to generate text: " +:+ err))
     | inl resp =>
         match openaigo.Choices resp with
         | choice :: _ => Returns (openaigo.Content choice) None
         | [] => Returns "" (Some "no response from OpenAI API")
         end
     end,
     openai.mkState w' (openai.sent st ++ [req])).
Proof.
  intros Hopts Hexec req Hnew.
  unfold openai.Generate. rewrite Hopts, Hexec. fold req.
  unfold openai.generateOperation. rewrite (send_unfold _ _ _ _ _ Hnew).
  destruct r as [resp|err]; [|done]. by destruct (openaigo.Choices resp).
Qed.

(** X17: with no options and a model that is not a reasoning model, the
    request of [Generate] carries temperature 0.7 and top-p 0, while every
    request of [GenerateWithTools] carries temperature 0.7, top-p 1 and
    parallel tool calls enabled: the two methods start from different
    defaults. *)
Theorem default_sampling_parameters c ctx prompt (tools : list (interfaces.Tool W)) st :
  openai.isReasoningModel (openai.Model c) = false ->
  (let req := openai.generateRequest buildMessages c ctx prompt openai.generateDefaults in
   openaigo.Temperature req = Some 0.7%float /\ openaigo.TopP req = Some 0%float
   /\ openaigo.ParallelToolCalls req = None)
  /\ exists reqs,
       openai.sent (openai.GenerateWithTools buildMessages c ctx prompt tools [] st).2
         = openai.sent st ++ reqs
       /\ Forall (fun req =>
                    openaigo.Temperature req = Some 0.7%float
                    /\ openaigo.TopP req = Some 1%float
                    /\ openaigo.ParallelToolCalls req = Some true) reqs.
Proof.
  intros Hplain. split.
  - unfold openai.generateRequest, openai.getTemperatureForModel. simpl.
    by rewrite Hplain.
  - unfold openai.GenerateWithTools, openai.GenerateWithTools_run.
    cbn [openai.applyNonNilOptions].
    destruct (toolLoop_trace c (openai.llmConfigOf interfaces.zeroGenerateOptions) tools
                (openai.toolDefinition <$> tools)
                (Z.to_nat (openai.maxIterationsOf interfaces.zeroGenerateOptions))
                (openai.initialMessages buildMessages prompt interfaces.zeroGenerateOptions)
                st) as (reqs & Hlog & _ & Hall & _).
    destruct (openai.toolLoop _ _ _ _ _ _ _) as [[out messages'] st'].
    exists reqs. split; [exact Hlog|].
    eapply Forall_impl; [exact Hall|].
    intros req (sentMessages & -> & _).
    unfold openai.loopRequest, openai.getTemperatureForModel. simpl.
    by rewrite Hplain.
Qed.

End generate_extras.

Lemma Generate_outcomes_witness :
  openai.Generate azureopenai.buildMessages directClient noContext "Capital of France?" [] start
  = (Returns "  Paris. " None,
     openai.mkState 1
       [openai.generateRequest azureopenai.buildMessages directClient noContext
          "Capital of France?" openai.generateDefaults]).
Proof.
  exact (Generate_outcomes azureopenai.buildMessages directClient noContext
           "Capital of France?" [] start openai.generateDefaults
           (inl (openaigo.mkChatCompletion [openaigo.mkChatCompletionMessage "  Paris. " []]))
           1%nat eq_refl eq_refl eq_refl).
Defined.

Lemma default_sampling_parameters_witness :
  exists reqs,
    openai.sent (openai.GenerateWithTools azureopenai.buildMessages directClient noContext
                   "Capital of France?" [] [] start).2 = reqs
    /\ Forall (fun req =>
                 openaigo.Temperature req = Some 0.7%float
                 /\ openaigo.TopP req = Some 1%float
                 /\ openaigo.ParallelToolCalls req = Some true) reqs.
Proof.
  destruct (default_sampling_parameters azureopenai.buildMessages directClient noContext
              "Capital of France?" [] start eq_refl) as [_ H].
  exact H.
Defined.

(** * Tool definitions and [Chat] *)

Lemma paramSchema_type_and_items (param : interfaces.ParameterSpec) :
  openaigo.schema_type (openai.paramSchema param) ≠ "integer"
  /\ (is_Some (openaigo.schema_items (openai.paramSchema param))
      <-> openaigo.schema_type (openai.paramSchema param) = "array")
  /\ openaigo.schema_items (openai.paramSchema param) ≠ Some "".
Proof.
  unfold openai.paramSchema.
  cbn [openaigo.schema_type openaigo.schema_items].
  set (declared := interfaces.ParameterSpec_Type param).
  set (items := interfaces.ParameterSpec_Items param).
  destruct (decide (declared = "integer")) as [Heq|Hne].
  - destruct (decide ("number" = "array")) as [Habs|_]; [discriminate Habs|].
    split_and!; [done | split; [intros [? ?]; done | done] | done].
  - split_and!; [done | |].
    + destruct (decide (declared = "array")); split; try done;
        try (by eexists); try (intros [? ?]; done).
    + destruct (decide (declared = "array")); [|done].
      destruct items as [spec|]; [|done].
      destruct (decide (interfaces.ParameterSpec_Type spec ≠ "")); [congruence|done].
Qed.

Section chat_and_tools.
Context {W : Type}.
Variable DefaultGenerateParams : llm.GenerateParams.
Implicit Types (c : openai.OpenAIClient W) (st : openai.State W).

(** X18: the definition built for a tool has one schema entry per declared
    parameter and no other; no entry has type ["integer"] (it is sent as
    ["number"]); an entry has an item type exactly when its type is
    ["array"], and that item type is never empty (["string"] by default);
    the required list holds exactly the names of the required parameters,
    each once. *)
Theorem toolDefinition_schema (tool : interfaces.Tool W) :
  let def := openai.toolDefinition tool in
  openaigo.Name def = interfaces.Tool_Name tool
  /\ (forall name,
        openaigo.Parameters_properties def !! name
        = openai.paramSchema <$> interfaces.Parameters tool !! name)
  /\ (forall name schema,
        openaigo.Parameters_properties def !! name = Some schema ->
        openaigo.schema_type schema ≠ "integer"
        /\ (is_Some (openaigo.schema_items schema) <-> openaigo.schema_type schema = "array")
        /\ openaigo.schema_items schema ≠ Some "")
  /\ (forall name,
        name ∈ openaigo.Parameters_required def
        <-> exists param, interfaces.Parameters tool !! name = Some param
                          /\ interfaces.ParameterSpec_Required param = true)
  /\ NoDup (openaigo.Parameters_required def).
Proof.
  intros def. subst def. unfold openai.toolDefinition. simpl. split_and!.
  - done.
  - intros name. apply lookup_fmap.
  - intros name schema Hlook. rewrite lookup_fmap in Hlook.
    destruct (interfaces.Parameters tool !! name) as [param|]; [|done].
    simpl in Hlook. inversion Hlook; subst. apply paramSchema_type_and_items.
  - intros name. rewrite list_elem_of_fmap. split.
    + intros ([name' param] & -> & Hin). apply list_elem_of_filter in Hin as [Hreq Hin].
      apply elem_of_map_to_list in Hin. by exists param.
    + intros (param & Hlook & Hreq). exists (name, param). split; [done|].
      apply list_elem_of_filter. split; [done|]. by apply elem_of_map_to_list.
  - eapply sublist_NoDup; [apply (NoDup_fst_map_to_list (interfaces.Parameters tool))|].
    apply fmap_sublist, sublist_filter.
Qed.

(** X19: [Chat] sends one entry per input message, in order, and never
    drops one: system, assistant and tool roles keep their kind (an
    assistant entry never has tool calls, a tool entry keeps its id even
    when empty) and every other role, known or not, is sent as a user
    message.  The request offers no tools and follows the reasoning-model
    rule: temperature 1.0 and no top-p for a reasoning model, the given
    values otherwise. *)
Theorem Chat_request c (messages : list llm.Message) (params : llm.GenerateParams) :
  let req := openai.chatRequest c messages params in
  Forall2 chatEntryOf messages (openaigo.Messages req)
  /\ openaigo.Tools req = []
  /\ (if openai.isReasoningModel (openai.Model c)
      then openaigo.Temperature req = Some 1%float /\ openaigo.TopP req = None
           /\ openaigo.ReasoningEffort req = llm.Reasoning params
      else openaigo.Temperature req = Some (llm.Temperature params)
           /\ openaigo.TopP req = Some (llm.TopP params)
           /\ openaigo.ReasoningEffort req = "").
Proof.
  intros req. subst req. unfold openai.chatRequest, openai.getTemperatureForModel. simpl.
  split_and!.
  - induction messages as [|msg messages IH]; csimpl; constructor; [|exact IH].
    unfold openai.chatMessage, chatEntryOf.
    repeat case_decide; simpl; split_and!; first [done | congruence].
  - done.
  - destruct (openai.isReasoningModel (openai.Model c)); simpl; split_and!; try done.
    case_bool_decide as Hr; [done | congruence].
Qed.

(** X20: without a retry executor, [Chat] sends its request once, with the
    default parameters when [params] is nil, and returns the first choice's
    text as received, ["no completions returned"] when there is no choice,
    and the vendor's error behind ["failed to create chat completion: "]
    when the call fails. *)
Theorem Chat_outcomes c ctx (messages : list llm.Message)
    (params : option llm.GenerateParams) st r w' :
  openai.retryExecutor c = None ->
  let req := openai.chatRequest c messages (default DefaultGenerateParams params) in
  openai.Completions_New c req (openai.world st) = (r, w') ->
  openai.Chat DefaultGenerateParams c ctx messages params st
  = (match r with
     | inr err => Returns "" (Some ("failed to create chat completion: " +:+ err))
     | inl resp =>
         match openaigo.Choices resp with
         | choice :: _ => Returns (openaigo.Content choice) None
         | [] => Returns "" (Some "no completions returned")
         end
     end,
     openai.mkState w' (openai.sent st ++ [req])).
Proof.
  intros Hexec req Hnew. unfold openai.Chat. rewrite Hexec.
  replace (match params with Some p => p | None => DefaultGenerateParams end)
    with (default DefaultGenerateParams params) by (by destruct params).
  fold req. unfold openai.chatOperation. rewrite (send_unfold _ _ _ _ _ Hnew).
  destruct r as [resp|err]; [|done]. by destruct (openaigo.Choices resp).
Qed.

End chat_and_tools.

Lemma toolDefinition_schema_witness :
  openaigo.Parameters_properties (openai.toolDefinition searchTool) !! "limit"
    = Some (openaigo.mkParamSchema "How many hits" "number" None None)
  /\ "limit" ∈ openaigo.Parameters_required (openai.toolDefinition searchTool).
Proof.
  destruct (toolDefinition_schema searchTool) as (_ & Hprops & _ & Hreq & _).
  split.
  - rewrite Hprops. reflexivity.
  - apply Hreq. eexists. split; reflexivity.
Defined.

Lemma Chat_outcomes_witness :
  openai.Chat (llm.mkGenerateParams 0.7%float 1%float 0%float 0%float [] "")
    (flakyClient None) noContext [llm.mkMessage "critic" "Too long" ""] None start
  = (Returns "" (Some "failed to create chat completion: connection reset"),
     openai.mkState 1
       [openai.chatRequest (flakyClient None) [llm.mkMessage "critic" "Too long" ""]
          (llm.mkGenerateParams 0.7%float 1%float 0%float 0%float [] "")]).
Proof.
  exact (Chat_outcomes (llm.mkGenerateParams 0.7%float 1%float 0%float 0%float [] "")
           (flakyClient None) noContext [llm.mkMessage "critic" "Too long" ""] None start
           (inr "connection reset") 1%nat eq_refl eq_refl).
Defined.

(** * Further properties of the tracing middleware *)

Section tracing_extras.
Context {W Ctx Opt Stream : Type}.
Variable Now : W -> Z.
Variable sha256hex : string -> string.
Implicit Types (m : tracing.TracedLLM W Ctx Opt) (st : tracing.State W).

(** The events of a finished call: attributes, then the error if any, then
    the end of the span. *)
Lemma responseEvents_shape startTime endTime (r : Outcome) :
  exists attrs,
    Forall isAttribute attrs
    /\ tracing.responseEvents sha256hex startTime endTime r
       = attrs ++ match r with
                  | Returns _ (Some err) => [tracing.RecordError err]
                  | _ => []
                  end ++ [tracing.End_]
    /\ length attrs = match r with Returns _ None => 3 | _ => 0 end.
Proof.
  destruct r as [response [err|]|]; simpl.
  - by exists [].
  - eexists [_; _; _]. split_and!; [|reflexivity|reflexivity]. by repeat constructor.
  - by exists [].
Qed.

(** X21: [TracedLLM.Generate] returns exactly what the wrapped client's
    [Generate] returns and leaves the world it leaves.  It opens one span,
    [llm.generate], sets attributes on it (three before the call and three
    more only when the call succeeded), records the error exactly when the
    call returned one, and ends the span last in every case. *)
Theorem TracedLLM_Generate_transparent m (ctx : Ctx) (prompt : string)
    (options : list Opt) st :
  let wrapped :=
    tracing.Generate (tracing.llm m)
      (tracing.spanContext (tracing.tracer m) ctx "llm.generate")
      prompt options (tracing.world st) in
  let traced := tracing.TracedLLM_Generate Now sha256hex m ctx prompt options st in
  traced.1 = wrapped.1
  /\ tracing.world traced.2 = wrapped.2
  /\ exists attrs,
       Forall isAttribute attrs
       /\ length attrs = match wrapped.1 with Returns _ None => 6 | _ => 3 end
       /\ tracing.events traced.2
          = tracing.events st
            ++ tracing.StartSpan "llm.generate" :: attrs
            ++ match wrapped.1 with
               | Returns _ (Some err) => [tracing.RecordError err]
               | _ => []
               end ++ [tracing.End_].
Proof.
  intros wrapped traced. subst wrapped traced. unfold tracing.TracedLLM_Generate.
  destruct (tracing.Generate _ _ _ _ _) as [r w'].
  destruct (responseEvents_shape (Now (tracing.world st)) (Now w') r)
    as (attrs & Hattrs & Heq & Hlen).
  simpl. split_and!; [done | done |].
  eexists ([_; _; _] ++ attrs). split_and!.
  3: { rewrite Heq. simpl. reflexivity. }
  - apply Forall_app. split; [by repeat constructor | exact Hattrs].
  - rewrite length_app, Hlen. by destruct r as [? [?|]|].
Qed.

(** X22: when the wrapped client has [GenerateWithTools], the middleware
    returns exactly what that method returns, passing it the same tools, and
    leaves the world it leaves.  It opens one span,
    [llm.generate_with_tools], records the number of tools, records the
    error exactly when the call returned one, and ends the span last. *)
Theorem TracedLLM_GenerateWithTools_transparent m (ctx : Ctx) (prompt : string)
    (tools : list (interfaces.Tool W)) (options : list Opt) st llmWithTools :
  tracing.GenerateWithTools (tracing.llm m) = Some llmWithTools ->
  let wrapped :=
    llmWithTools (tracing.spanContext (tracing.tracer m) ctx "llm.generate_with_tools")
      prompt tools options (tracing.world st) in
  let traced :=
    tracing.TracedLLM_GenerateWithTools Now sha256hex m ctx prompt tools options st in
  traced.1 = wrapped.1
  /\ tracing.world traced.2 = wrapped.2
  /\ exists attrs,
       Forall isAttribute attrs
       /\ tracing.SetAttribute "tools.count" (interfaces.AnyInt (Z.of_nat (length tools)))
          ∈ attrs
       /\ tracing.events traced.2
          = tracing.events st
            ++ tracing.StartSpan "llm.generate_with_tools" :: attrs
            ++ match wrapped.1 with
               | Returns _ (Some err) => [tracing.RecordError err]
               | _ => []
               end ++ [tracing.End_].
Proof.
  intros Hsome wrapped traced. subst wrapped traced.
  unfold tracing.TracedLLM_GenerateWithTools. rewrite Hsome.
  destruct (llmWithTools _ _ _ _ _) as [r w'].
  destruct (responseEvents_shape (Now (tracing.world st)) (Now w') r)
    as (attrs & Hattrs & Heq & _).
  simpl. split_and!; [done | done |].
  eexists (([_; _; _; _] ++ (if decide (0 < length tools)
               then [tracing.SetAttribute "tools"
                       (interfaces.AnyString
                          (gostrings.Join (interfaces.Tool_Name <$> tools) ","))]
               else [])) ++ attrs). split_and!.
  3: { rewrite Heq. rewrite <- !app_assoc. reflexivity. }
  - apply Forall_app. split; [|exact Hattrs].
    apply Forall_app. split; [by repeat constructor|].
    case_decide; by repeat constructor.
  - do 2 (apply elem_of_app; left). do 2 apply list_elem_of_further.
    apply list_elem_of_here.
Qed.

(** X23: the streaming methods fail with ["underlying LLM does not support
    streaming"] when the wrapped client is not a streaming client, and then
    start no span and leave the world untouched.  Otherwise they return
    exactly what the wrapped method returns; the span they open holds
    attributes only (an error returned by the wrapped method is not
    recorded) and is already ended when the method returns. *)
Theorem TracedLLM_streaming_spans m
    (streamingLLM : option (tracing.StreamingLLM W Ctx Opt Stream))
    (ctx : Ctx) (prompt : string) (tools : list (interfaces.Tool W))
    (options : list Opt) st :
  let traced := tracing.TracedLLM_GenerateStream sha256hex Stream m streamingLLM
                  ctx prompt options st in
  let tracedTools := tracing.TracedLLM_GenerateWithToolsStream sha256hex Stream m
                       streamingLLM ctx prompt tools options st in
  match streamingLLM with
  | None =>
      traced = ((None, Some "underlying LLM does not support streaming"), st)
      /\ tracedTools = ((None, Some "underlying LLM does not support streaming"), st)
  | Some streaming =>
      let wrapped :=
        tracing.GenerateStream streaming
          (tracing.spanContext (tracing.tracer m) ctx "llm.generate_stream")
          prompt options (tracing.world st) in
      let wrappedTools :=
        tracing.GenerateWithToolsStream streaming
          (tracing.spanContext (tracing.tracer m) ctx "llm.generate_with_tools_stream")
          prompt tools options (tracing.world st) in
      (traced.1 = wrapped.1 /\ tracing.world traced.2 = wrapped.2
       /\ exists attrs,
            Forall isAttribute attrs
            /\ tracing.events traced.2
               = tracing.events st
                 ++ tracing.StartSpan "llm.generate_stream" :: attrs ++ [tracing.End_])
      /\ (tracedTools.1 = wrappedTools.1 /\ tracing.world tracedTools.2 = wrappedTools.2
          /\ exists attrs,
               Forall isAttribute attrs
               /\ tracing.events tracedTools.2
                  = tracing.events st
                    ++ tracing.StartSpan "llm.generate_with_tools_stream" :: attrs
                    ++ [tracing.End_])
  end.
Proof.
  intros traced tracedTools. subst traced tracedTools.
  destruct streamingLLM as [streaming|]; [|done].
  unfold tracing.TracedLLM_GenerateStream, tracing.TracedLLM_GenerateWithToolsStream.
  destruct (tracing.GenerateStream _ _ _ _ _) as [r w'].
  destruct (tracing.GenerateWithToolsStream _ _ _ _ _ _) as [r2 w2].
  simpl. split; (split_and!; [done | done |]).
  - eexists [_; _; _; _]. split; [|reflexivity]. by repeat constructor.
  - eexists ([_; _; _; _; _] ++ (if decide (0 < length tools)
               then [tracing.SetAttribute "tools"
                       (interfaces.AnyString
                          (gostrings.Join (interfaces.Tool_Name <$> tools) ","))]
               else [])). split.
    2: { rewrite <- !app_assoc. reflexivity. }
    apply Forall_app. split; [by repeat constructor|].
    case_decide; by repeat constructor.
Qed.

End tracing_extras.

(** A client with [GenerateWithTools] that reports how many tools it got. *)
Lemma TracedLLM_GenerateWithTools_transparent_witness :
  (tracing.TracedLLM_GenerateWithTools Z.of_nat (fun s => s)
     (tracing.NewTracedLLM
        (tracing.mkLLM (tracing.Generate echoLLM) "echo"
           (Some (fun _ _ tools _ (calls : nat) =>
                    (Returns "" (Some "tools rejected"), S calls)))
           None)
        listTracer)
     [] "Hi" [brokenWeather] [tt] (tracing.mkState 0%nat [])).1
  = Returns "" (Some "tools rejected").
Proof.
  destruct (TracedLLM_GenerateWithTools_transparent Z.of_nat (fun s => s)
     (tracing.NewTracedLLM
        (tracing.mkLLM (tracing.Generate echoLLM) "echo"
           (Some (fun _ _ tools _ (calls : nat) =>
                    (Returns "" (Some "tools rejected"), S calls)))
           None)
        listTracer)
     [] "Hi" [brokenWeather] [tt] (tracing.mkState 0%nat []) _ eq_refl) as (Hout & _).
  exact Hout.
Defined.
